(** * Authentication and session authorization of the contacts API

    A shallow embedding of [src/services/auth.py], [src/services/roles.py],
    [src/repository/users.py], [src/routes/auth.py] and the role gates of
    [src/routes/contacts.py], with the properties of the specification that
    concern them.

    Conventions.
    - Handlers run in a state-and-exception monad [M] over a [World]: the
      users table, the Redis keyspace and the number of clock readings taken
      so far.  A raised exception keeps the state reached when it was raised
      (every [db.commit()] before it has happened).
    - Wall-clock time is an oracle [clock : nat -> Z] in microseconds since
      the epoch; the k-th time-dependent operation ([datetime.utcnow()], the
      expiry check of [jwt.decode], a Redis [GET] or [EXPIRE]) reads
      [clock k].
    - python-jose, passlib and pickle are third-party libraries; they are
      interfaces ([Jose], [CryptContext], [Pickle]) of which the handlers are
      clients.
    - An explicit token lifetime is a [float]; it is taken by its truth
      value and by the [timedelta] its constructor makes of it, and the
      sum with the clock reading is checked against the range of
      [datetime]. *)

From Stdlib Require Import ZArith Lia.
From stdpp Require Import gmap strings list fin_maps pretty.

Local Open Scope Z_scope.
Local Open Scope string_scope.

(** ** Python values *)

(** JSON claim values, as [jwt.decode] hands them back ([None] is [JNull]). *)
Inductive json : Type :=
  | JNull
  | JStr (s : string)
  | JInt (n : Z).

(** Values of the dictionaries given to [jwt.encode]: JSON values and the
    [datetime] objects the token constructors put under ["iat"] and ["exp"]
    (microseconds since the epoch). *)
Inductive pyval : Type :=
  | PyJ (j : json)
  | PyDatetime (t : Z).

#[global] Instance json_eq_dec : EqDecision json.
Proof. solve_decision. Defined.

#[global] Instance pyval_eq_dec : EqDecision pyval.
Proof. solve_decision. Defined.

(** [str(v)], as the f-string [f"user:{email}"] formats its argument. *)
Definition py_str (v : json) : string :=
  match v with
  | JNull => "None"
  | JStr s => s
  | JInt n => pretty n
  end.

(** [d.get(k)]: the value, or [None] when the key is missing. *)
Definition dict_get (k : string) (d : gmap string json) : json :=
  default JNull (d !! k).

(** [timedelta(...)] in microseconds. *)
Definition timedelta_seconds (s : Z) : Z := s * 1000000.
Definition timedelta_minutes (m : Z) : Z := timedelta_seconds (m * 60).
Definition timedelta_days (d : Z) : Z := timedelta_seconds (d * 86400).

(** ** Exceptions and outcomes *)

Inductive exn : Type :=
  | HTTPException (status_code : Z) (detail : string)
                  (headers : list (string * string))
  | KeyError (key : string)
  | AttributeError (msg : string)
  | ValueError (msg : string)
  | OverflowError
  | UnpicklingError.

#[global] Instance exn_eq_dec : EqDecision exn.
Proof. solve_decision. Defined.

Inductive outcome (A : Type) : Type :=
  | Returns (a : A)
  | Raises (e : exn).
Arguments Returns {A} a.
Arguments Raises {A} e.

(** A [float] argument, by the two things the program observes of it: its
    truth value ([bool(x)], false for zero only) and the [timedelta] that
    [timedelta(seconds=x)] constructs, in microseconds after the
    constructor's rounding, or the exception the constructor raises
    ([OverflowError] out of range or for an infinity, [ValueError] for a
    NaN). *)
Record pyfloat : Type := {
  float_bool : bool;
  float_timedelta : outcome Z
}.

(** A whole number of seconds as such an argument.  A [timedelta] holds
    between -999999999 days and 999999999 days, 23:59:59.999999. *)
Definition timedelta_min_seconds : Z := -999999999 * 86400.
Definition timedelta_max_seconds : Z := 999999999 * 86400 + 86399.
Definition whole_seconds (s : Z) : pyfloat :=
  {| float_bool := bool_decide (s ≠ 0);
     float_timedelta :=
       if decide (timedelta_min_seconds ≤ s ≤ timedelta_max_seconds)%Z
       then Returns (timedelta_seconds s)
       else Raises OverflowError |}.

(** [datetime.min] and [datetime.max], the first microsecond of year 1 and
    the last of year 9999, in microseconds since the epoch. *)
Definition datetime_min : Z := -62135596800 * 1000000.
Definition datetime_max : Z := 253402300799 * 1000000 + 999999.

(** [d + delta] for a [datetime] and a [timedelta]. *)
Definition datetime_add (d delta : Z) : outcome Z :=
  if decide (datetime_min ≤ d + delta ≤ datetime_max)%Z
  then Returns (d + delta)
  else Raises OverflowError.

Definition HTTP_401_UNAUTHORIZED : Z := 401.
Definition HTTP_403_FORBIDDEN : Z := 403.
Definition HTTP_422_UNPROCESSABLE_ENTITY : Z := 422.

(** An exception the framework turns into a typed HTTP error response, as
    opposed to one that escapes the handler. *)
Definition is_http (e : exn) : bool :=
  match e with
  | HTTPException _ _ _ => true
  | _ => false
  end.

(** ** Data model *)

Module Role.
(** Modelled from the spec: [src/database/models.py] is not among the
    sources; the role enumeration is admin, moderator, user. *)
Inductive t : Type := admin | moderator | user.

#[global] Instance eq_dec : EqDecision t.
Proof. solve_decision. Defined.
End Role.

Module User.
(** Modelled from the spec: the [User] row of [src/database/models.py]
    (not among the sources), with the columns the handlers read and
    write. *)
Record t : Type := mk {
  id : Z;
  username : string;
  email : string;
  password : string;
  avatar : option string;
  roles : Role.t;
  confirmed : bool;
  refresh_token : option string
}.

#[global] Instance eq_dec : EqDecision t.
Proof. solve_decision. Defined.

(** [user.refresh_token = token] *)
Definition set_refresh_token (tok : option string) (u : t) : t :=
  mk (id u) (username u) (email u) (password u) (avatar u) (roles u)
     (confirmed u) tok.
End User.

(** [TokenModel] of [src/schemas.py], the body of a login or refresh
    response. *)
Module TokenModel.
Record t : Type := mk {
  access_token : string;
  refresh_token : string;
  token_type : string
}.
End TokenModel.

(** [OAuth2PasswordRequestForm]: the two fields [login] reads. *)
Record LoginForm : Type := {
  form_username : string;
  form_password : string
}.

(** ** The Redis keyspace *)

(** A key holds a byte string and, after [EXPIRE], the instant at which it
    disappears. *)
Record redis_entry : Type := {
  value : string;
  deadline : option Z
}.

Definition live (now : Z) (e : redis_entry) : bool :=
  match deadline e with
  | None => true
  | Some d => bool_decide (now < d)
  end.

(** [GET key] at time [now]. *)
Definition redis_get (now : Z) (key : string)
    (ks : gmap string redis_entry) : option string :=
  match ks !! key with
  | Some e => if live now e then Some (value e) else None
  | None => None
  end.

(** [SET key v]: stores the value and discards any previous time to live. *)
Definition redis_set (key v : string)
    (ks : gmap string redis_entry) : gmap string redis_entry :=
  <[key := {| value := v; deadline := None |}]> ks.

(** [EXPIRE key secs] at time [now]: no effect on a missing or expired key. *)
Definition redis_expire (now : Z) (key : string) (secs : Z)
    (ks : gmap string redis_entry) : gmap string redis_entry :=
  match ks !! key with
  | Some e =>
      if live now e
      then <[key := {| value := value e;
                       deadline := Some (now + timedelta_seconds secs) |}]> ks
      else ks
  | None => ks
  end.

(** ** The world and the handler monad *)

Record World : Type := {
  db : list User.t;                  (* the users table, in storage order *)
  r : gmap string redis_entry;       (* Auth.r *)
  ticks : nat                        (* clock readings taken so far *)
}.

Definition set_db (d : list User.t) (w : World) : World :=
  {| db := d; r := r w; ticks := ticks w |}.
Definition set_r (ks : gmap string redis_entry) (w : World) : World :=
  {| db := db w; r := ks; ticks := ticks w |}.
Definition tick (w : World) : World :=
  {| db := db w; r := r w; ticks := S (ticks w) |}.

Definition M (A : Type) : Type := World → outcome A * World.

Definition ret {A} (a : A) : M A := λ w, (Returns a, w).
Definition raise {A} (e : exn) : M A := λ w, (Raises e, w).
Definition bind {A B} (m : M A) (k : A → M B) : M B :=
  λ w, match m w with
       | (Returns a, w') => k a w'
       | (Raises e, w') => (Raises e, w')
       end.
(** A library call that may raise. *)
Definition lift {A} (o : outcome A) : M A := λ w, (o, w).

Notation "'let*' x ':=' m 'in' k" := (bind m (λ x, k))
  (at level 10, x pattern, m at level 100, k at level 200).
Notation "m ';;' k" := (bind m (λ _, k))
  (at level 100, k at level 200, right associativity).

(** ** Third-party libraries *)

(** [jose.jwt]. [jwt_decode token key algorithms now] is [None] when the call
    raises [JWTError] (bad signature, malformed payload, expired at [now]). *)
Class Jose : Type := {
  jwt_encode : gmap string pyval → string → string → string;
  jwt_decode : string → string → list string → Z → option (gmap string json)
}.

(** [passlib.context.CryptContext(schemes=["bcrypt"])], its [verify]. *)
Class CryptContext : Type := {
  ctx_verify : string → string → outcome bool
}.

(** [pickle], on the objects the cache holds ([None] or a [User]). *)
Class Pickle : Type := {
  pickle_dumps : option User.t → string;
  pickle_loads : string → outcome (option User.t)
}.

(** [src/conf/config.py]: the two settings [Auth] reads. *)
Record Settings : Type := {
  secret_key : string;
  algorithm : string
}.

Definition default_settings : Settings :=
  {| secret_key := "secret_key"; algorithm := "HS256" |}.

(** ** The services, the repository and the routes *)

Section Handlers.
Context (clock : nat → Z) (settings : Settings).
Context `{!Jose, !CryptContext, !Pickle}.

(** [datetime.utcnow()] *)
Definition utcnow : M Z := λ w, (Returns (clock (ticks w)), tick w).

(** [jwt.decode(token, self.SECRET_KEY, algorithms=[self.ALGORITHM])];
    [None] stands for a raised [JWTError]. *)
Definition decode (token : string) : M (option (gmap string json)) :=
  λ w, (Returns (jwt_decode token (secret_key settings)
                   [algorithm settings] (clock (ticks w))), tick w).

(** [jwt.encode(to_encode, self.SECRET_KEY, algorithm=self.ALGORITHM)] *)
Definition encode (to_encode : gmap string pyval) : string :=
  jwt_encode to_encode (secret_key settings) (algorithm settings).

(** [self.r.get(key)], [self.r.set(key, v)], [self.r.expire(key, secs)] *)
Definition r_get (key : string) : M (option string) :=
  λ w, (Returns (redis_get (clock (ticks w)) key (r w)), tick w).
Definition r_set (key v : string) : M unit :=
  λ w, (Returns tt, set_r (redis_set key v (r w)) w).
Definition r_expire (key : string) (secs : Z) : M unit :=
  λ w, (Returns tt,
        tick (set_r (redis_expire (clock (ticks w)) key secs (r w)) w)).

(** *** src/repository/users.py *)

(** [db.query(User).filter_by(email=email).first()]: the first matching row
    with its position in the table, which stands for the identity of the
    ORM object. *)
Definition get_user_by_email (email : json) : M (option (nat * User.t)) :=
  λ w, (Returns (list_find (λ u, JStr (User.email u) = email) (db w)), w).

(** [user.refresh_token = refresh_token; db.commit()] *)
Definition update_token (user : nat * User.t) (refresh_token : option string)
    : M unit :=
  λ w, (Returns tt,
        set_db (alter (User.set_refresh_token refresh_token) user.1 (db w)) w).

(** *** src/services/auth.py *)

Definition verify_password (plain_password hashed_password : string)
    : outcome bool :=
  ctx_verify plain_password hashed_password.

(** [if expires_delta:] is false for [None] and for zero. *)
Definition truthy (expires_delta : option pyfloat) : option pyfloat :=
  match expires_delta with
  | Some x => if float_bool x then Some x else None
  | None => None
  end.

(** [expires_delta] is an [Optional[float]].  In the first branch
    [datetime.utcnow()] is read, then [timedelta(seconds=expires_delta)] is
    constructed, then the two are added; the constructor and the addition
    raise out of range. *)
Definition create_access_token (data : gmap string pyval)
    (expires_delta : option pyfloat) : M string :=
  let to_encode := data in
  let* expire :=
    match truthy expires_delta with
    | Some x =>
        let* now := utcnow in
        let* delta := lift (float_timedelta x) in
        lift (datetime_add now delta)
    | None => let* now := utcnow in ret (now + timedelta_minutes 15)
    end in
  let* iat := utcnow in
  let to_encode :=
    <["scope" := PyJ (JStr "access_token")]>
      (<["exp" := PyDatetime expire]>
         (<["iat" := PyDatetime iat]> to_encode)) in
  ret (encode to_encode).

Definition create_refresh_token (data : gmap string pyval)
    (expires_delta : option pyfloat) : M string :=
  let to_encode := data in
  let* expire :=
    match truthy expires_delta with
    | Some x =>
        let* now := utcnow in
        let* delta := lift (float_timedelta x) in
        lift (datetime_add now delta)
    | None => let* now := utcnow in ret (now + timedelta_days 7)
    end in
  let* iat := utcnow in
  let to_encode :=
    <["scope" := PyJ (JStr "refresh_token")]>
      (<["exp" := PyDatetime expire]>
         (<["iat" := PyDatetime iat]> to_encode)) in
  ret (encode to_encode).

Definition credentials_exception : exn :=
  HTTPException HTTP_401_UNAUTHORIZED "Could not validate credentials"
                [("WWW-Authenticate", "Bearer")].

Definition get_current_user (token : string) : M User.t :=
  let* decoded := decode token in
  match decoded with
  | None => raise credentials_exception
  | Some payload =>
      if decide (dict_get "scope" payload = JStr "access_token") then
        let email := dict_get "sub" payload in
        if decide (email = JNull) then raise credentials_exception
        else
          let key := "user:" +:+ py_str email in
          let* cached := r_get key in
          let* user :=
            match cached with
            | None =>
                let* found := get_user_by_email email in
                match found with
                | None => raise credentials_exception
                | Some user =>
                    r_set key (pickle_dumps (Some user.2));;
                    r_expire key 900;;
                    ret (Some user.2)
                end
            | Some blob => lift (pickle_loads blob)
            end in
          match user with
          | None => raise credentials_exception
          | Some user => ret user
          end
      else raise credentials_exception
  end.

Definition decode_refresh_token (refresh_token : string) : M json :=
  let* decoded := decode refresh_token in
  match decoded with
  | None =>
      raise (HTTPException HTTP_401_UNAUTHORIZED
               "Could not validate credentials" [])
  | Some payload =>
      match payload !! "scope" with
      | None => raise (KeyError "scope")
      | Some scope =>
          if decide (scope = JStr "refresh_token") then
            match payload !! "sub" with
            | None => raise (KeyError "sub")
            | Some email => ret email
            end
          else raise (HTTPException HTTP_401_UNAUTHORIZED
                        "Invalid scope for token" [])
      end
  end.

Definition create_email_token (data : gmap string pyval) : M string :=
  let to_encode := data in
  let* now := utcnow in
  let expire := now + timedelta_days 7 in
  let* iat := utcnow in
  let to_encode :=
    <["scope" := PyJ (JStr "email_token")]>
      (<["exp" := PyDatetime expire]>
         (<["iat" := PyDatetime iat]> to_encode)) in
  ret (encode to_encode).

(** The function ends without a [return] when the scope is another one:
    it then returns [None]. *)
Definition get_email_from_token (token : string) : M json :=
  let* decoded := decode token in
  match decoded with
  | None =>
      raise (HTTPException HTTP_422_UNPROCESSABLE_ENTITY
               "Invalid token for email verification" [])
  | Some payload =>
      match payload !! "scope" with
      | None => raise (KeyError "scope")
      | Some scope =>
          if decide (scope = JStr "email_token") then
            match payload !! "sub" with
            | None => raise (KeyError "sub")
            | Some email => ret email
            end
          else ret JNull
      end
  end.

(** *** src/services/roles.py *)

(** [RoleAccess(allowed_roles).__call__], given the resolved user. *)
Definition RoleAccess (allowed_roles : list Role.t) (current_user : User.t)
    : outcome unit :=
  if decide (User.roles current_user ∉ allowed_roles)
  then Raises (HTTPException HTTP_403_FORBIDDEN "Operation forbidden" [])
  else Returns tt.

(** *** src/routes/contacts.py *)

Definition allowed_operation_get : User.t → outcome unit :=
  RoleAccess [Role.admin; Role.moderator; Role.user].
Definition allowed_operation_create : User.t → outcome unit :=
  RoleAccess [Role.admin; Role.moderator; Role.user].
Definition allowed_operation_update : User.t → outcome unit :=
  RoleAccess [Role.admin; Role.moderator].
Definition allowed_operation_remove : User.t → outcome unit :=
  RoleAccess [Role.admin].

(** *** src/routes/auth.py *)

Definition login (body : LoginForm) : M TokenModel.t :=
  let* found := get_user_by_email (JStr (form_username body)) in
  match found with
  | None => raise (HTTPException HTTP_401_UNAUTHORIZED "Invalid email" [])
  | Some user =>
      if negb (User.confirmed user.2) then
        raise (HTTPException HTTP_401_UNAUTHORIZED "Email not confirmad" [])
      else
        let* ok := lift (verify_password (form_password body)
                           (User.password user.2)) in
        if negb ok then
          raise (HTTPException HTTP_401_UNAUTHORIZED "Invalid password" [])
        else
          let data : gmap string pyval :=
            {["sub" := PyJ (JStr (User.email user.2))]} in
          let* access_token := create_access_token data None in
          let* refresh_token := create_refresh_token data None in
          update_token user (Some refresh_token);;
          ret (TokenModel.mk access_token refresh_token "bearer")
  end.

(** [credentials.credentials] is the bearer token of the request. *)
Definition refresh_token (token : string) : M TokenModel.t :=
  let* email := decode_refresh_token token in
  let* found := get_user_by_email email in
  match found with
  | None =>
      raise (AttributeError
               "'NoneType' object has no attribute 'refresh_token'")
  | Some user =>
      if decide (User.refresh_token user.2 ≠ Some token) then
        update_token user None;;
        raise (HTTPException HTTP_401_UNAUTHORIZED
                 "Invalid refresh token" [])
      else
        let data : gmap string pyval := {["sub" := PyJ email]} in
        let* access_token := create_access_token data None in
        let* refresh_token := create_refresh_token data None in
        update_token user (Some refresh_token);;
        ret (TokenModel.mk access_token refresh_token "bearer")
  end.

(** *** Vocabulary of the properties *)

(** The outcome is a token that encodes claims whose ["exp"] lies
    [lifetime] microseconds after the instant [issued]. *)
Definition expires_after (res : outcome string * World)
    (issued lifetime : Z) : Prop :=
  ∃ claims : gmap string pyval,
    res.1 = Returns (encode claims) ∧
    claims !! "exp" = Some (PyDatetime (issued + lifetime)).

(** The claims a token constructor signs: the caller's data, the second
    clock reading as ["iat"], the expiry and the scope. *)
Definition signed_claims (data : gmap string pyval) (scope : string)
    (iat exp : Z) : gmap string pyval :=
  <["scope" := PyJ (JStr scope)]>
    (<["exp" := PyDatetime exp]> (<["iat" := PyDatetime iat]> data)).

(** The two login failures: an email with no row, and the email of a row
    whose password does not verify. *)
Definition login_failures_indistinguishable : Prop :=
  ∀ (w : World) (unknown known : LoginForm) (i : nat) (u : User.t),
    list_find (λ u, JStr (User.email u) = JStr (form_username unknown))
              (db w) = None →
    list_find (λ u, JStr (User.email u) = JStr (form_username known))
              (db w) = Some (i, u) →
    verify_password (form_password known) (User.password u) = Returns false →
    (login unknown w).1 = (login known w).1.

(** An explicit lifetime of [s] seconds puts the expiry of an access token
    [s] seconds after issuance, whatever [s] is. *)
Definition explicit_lifetime_honoured : Prop :=
  ∀ (data : gmap string pyval) (s : Z) (w : World),
    expires_after (create_access_token data (Some (whole_seconds s)) w)
                  (clock (ticks w)) (s * 1000000).

(** A bearer token resolves to a principal only if it decodes, carries the
    access scope and a subject that is neither missing nor the empty
    string. *)
Definition resolves_only_nonempty_subject : Prop :=
  ∀ (token : string) (w : World) (u : User.t),
    (get_current_user token w).1 = Returns u →
    ∃ payload : gmap string json,
      jwt_decode token (secret_key settings) [algorithm settings]
                 (clock (ticks w)) = Some payload ∧
      dict_get "scope" payload = JStr "access_token" ∧
      dict_get "sub" payload ≠ JNull ∧
      dict_get "sub" payload ≠ JStr "".

(** The refresh token a login issued is refused with 401 "Invalid refresh
    token" once a later login of the same principal has succeeded. *)
Definition superseded_token_refused : Prop :=
  ∀ (body : LoginForm) (w w1 w2 : World) (toks1 toks2 : TokenModel.t),
    login body w = (Returns toks1, w1) →
    login body w1 = (Returns toks2, w2) →
    (refresh_token (TokenModel.refresh_token toks1) w2).1 =
      Raises (HTTPException HTTP_401_UNAUTHORIZED "Invalid refresh token" []).

(** The refresh token stored in the row found for an email, if there is
    such a row. *)
Definition stored_refresh_token (email : json) (w : World)
    : option (option string) :=
  (λ p, User.refresh_token p.2) <$>
    list_find (λ u, JStr (User.email u) = email) (db w).

(** Every live cache entry of a principal deserializes to the row the
    users table holds for that email at present. *)
Definition cache_consistent (now : Z) (w : World) : Prop :=
  ∀ (email blob : string),
    redis_get now ("user:" +:+ email) (r w) = Some blob →
    ∃ i u,
      list_find (λ u, JStr (User.email u) = JStr email) (db w) = Some (i, u) ∧
      pickle_loads blob = Returns (Some u).

End Handlers.

(** ** More vocabulary *)

(** Two states of the users table that differ at most in the stored refresh
    tokens: same rows, in the same order, with every other column equal. *)
Definition same_but_tokens (t1 t2 : list User.t) : Prop :=
  User.set_refresh_token None <$> t1 = User.set_refresh_token None <$> t2.

(** The claims [login] and [refresh_token] sign for a subject: the access
    token from the clock readings [k] and [k + 1], the refresh token from
    the two readings after them. *)
Definition issued_access_claims (clock : nat → Z) (k : nat) (sub : json)
    : gmap string pyval :=
  signed_claims {["sub" := PyJ sub]} "access_token"
    (clock (S k)) (clock k + timedelta_minutes 15).

Definition issued_refresh_claims (clock : nat → Z) (k : nat) (sub : json)
    : gmap string pyval :=
  signed_claims {["sub" := PyJ sub]} "refresh_token"
    (clock (S (S (S k)))) (clock (S (S k)) + timedelta_days 7).

(** The response of a successful login or refresh that started issuing at
    clock reading [k]. *)
Definition issued_tokens `{!Jose} (clock : nat → Z) (settings : Settings)
    (k : nat) (sub : json) : TokenModel.t :=
  TokenModel.mk (encode settings (issued_access_claims clock k sub))
                (encode settings (issued_refresh_claims clock k sub))
                "bearer".

(** ** Registration and email confirmation *)

(** [UserModel] of [src/schemas.py], the body of a signup. *)
Record UserModel : Type := {
  um_username : string;
  um_email : string;
  um_password : string
}.

(** A call of [send_email] queued with [background_tasks.add_task]: the
    recipient, the username and the base URL of the request.  The function
    is in [src/services/email.py], not among the sources; the handlers only
    queue it. *)
Record EmailTask : Type := {
  task_email : string;
  task_username : string;
  task_base_url : string
}.

(** [pwd_context.hash]: bcrypt draws a salt, which is an argument here. *)
Class PasswordHasher : Type := {
  ctx_hash : string → string → outcome string
}.

(** [libgravatar.Gravatar(email).get_image()] *)
Class Gravatar : Type := {
  get_image : string → string
}.

(** What the database fills in for a new [User] row: the key and the column
    defaults are declared in [src/database/models.py], which is not among
    the sources, so they are parameters. *)
Record UserColumns : Type := {
  next_id : list User.t → Z;
  default_roles : Role.t;
  default_confirmed : bool;
  default_refresh_token : option string
}.

(** [user.confirmed = True] *)
Definition set_confirmed (u : User.t) : User.t :=
  User.mk (User.id u) (User.username u) (User.email u) (User.password u)
          (User.avatar u) (User.roles u) true (User.refresh_token u).

Definition HTTP_400_BAD_REQUEST : Z := 400.
Definition HTTP_404_NOT_FOUND : Z := 404.
Definition HTTP_409_CONFLICT : Z := 409.

Section Registration.
Context (clock : nat → Z) (settings : Settings) (columns : UserColumns).
Context `{!Jose, !CryptContext, !Pickle, !PasswordHasher, !Gravatar}.

(** *** src/services/auth.py *)

Definition get_password_hash (salt password : string) : outcome string :=
  ctx_hash salt password.

(** *** src/repository/users.py *)

(** A [User] built from the fields of [body] and the Gravatar image, added
    and committed: the row goes to the end of the table. *)
Definition create_user (body : UserModel) : M User.t :=
  λ w,
    let new_user :=
      User.mk (next_id columns (db w)) (um_username body) (um_email body)
              (um_password body) (Some (get_image (um_email body)))
              (default_roles columns) (default_confirmed columns)
              (default_refresh_token columns) in
    (Returns new_user, set_db ((db w ++ [new_user])%list) w).

(** [repository_users.confirmed_email] *)
Definition repository_confirmed_email (email : json) : M unit :=
  let* found := get_user_by_email email in
  match found with
  | None =>
      raise (AttributeError "'NoneType' object has no attribute 'confirmed'")
  | Some user => λ w, (Returns tt, set_db (alter set_confirmed user.1 (db w)) w)
  end.

(** *** src/routes/auth.py *)

(** The handlers that queue mail return the queued tasks beside their
    result. *)
Definition signup (body : UserModel) (salt base_url : string)
    : M (User.t * list EmailTask) :=
  let* exist_user := get_user_by_email (JStr (um_email body)) in
  match exist_user with
  | Some _ =>
      raise (HTTPException HTTP_409_CONFLICT "Account already exists" [])
  | None =>
      let* hashed := lift (get_password_hash salt (um_password body)) in
      let body := {| um_username := um_username body;
                     um_email := um_email body;
                     um_password := hashed |} in
      let* new_user := create_user body in
      ret (new_user,
           [{| task_email := User.email new_user;
               task_username := User.username new_user;
               task_base_url := base_url |}])
  end.

Definition confirmed_email (token : string) : M string :=
  let* email := get_email_from_token clock settings token in
  let* found := get_user_by_email email in
  match found with
  | None => raise (HTTPException HTTP_400_BAD_REQUEST "Verification error" [])
  | Some user =>
      if User.confirmed user.2 then ret "Your email is already confirmed"
      else repository_confirmed_email email;; ret "Email confirmed"
  end.

Definition request_email (email base_url : string)
    : M (string * list EmailTask) :=
  let* found := get_user_by_email (JStr email) in
  match found with
  | Some user =>
      if User.confirmed user.2 then ret ("Your email is already confirmed", [])
      else ret ("Check your email for confirmation.",
                [{| task_email := User.email user.2;
                    task_username := User.username user.2;
                    task_base_url := base_url |}])
  | None => ret ("Check your email for confirmation.", [])
  end.

End Registration.

(** ** Contacts *)

Module Contact.
(** The columns of a contact that the repository reads and writes, as
    [ContactBase] of [src/schemas.py] lists them; dates are day numbers.
    The two timestamps, which only the database maintains, are left out. *)
Record t : Type := mk {
  id : Z;
  first_name : string;
  last_name : string;
  email : string;
  phone_number : string;
  birth_date : Z;
  additional_data : option string
}.

#[global] Instance eq_dec : EqDecision t.
Proof. solve_decision. Defined.
End Contact.

(** *** src/repository/contacts.py *)

(** Each function takes the contacts table and returns its result with the
    table it leaves. *)
Definition get_contact_by_id (id : Z) (table : list Contact.t)
    : option (nat * Contact.t) :=
  list_find (λ c, Contact.id c = id) table.

Definition get_contact_by_email (email : string) (table : list Contact.t)
    : option (nat * Contact.t) :=
  list_find (λ c, Contact.email c = email) table.

(** The new row goes to the end of the table.  What the commit does when
    the body's id already has a row depends on the key declared in
    [src/database/models.py]; the properties below take the id to be new. *)
Definition create (body : Contact.t) (table : list Contact.t)
    : Contact.t * list Contact.t :=
  (body, (table ++ [body])%list).

Definition update (id : Z) (body : Contact.t) (table : list Contact.t)
    : option Contact.t * list Contact.t :=
  match get_contact_by_id id table with
  | Some (i, contact) =>
      let contact :=
        Contact.mk (Contact.id contact) (Contact.first_name contact)
                   (Contact.last_name contact) (Contact.email body)
                   (Contact.phone_number contact) (Contact.birth_date body)
                   (Contact.additional_data body) in
      (Some contact, <[i := contact]> table)
  | None => (None, table)
  end.

Definition remove (id : Z) (table : list Contact.t)
    : option Contact.t * list Contact.t :=
  match get_contact_by_id id table with
  | Some (i, contact) => (Some contact, delete i table)
  | None => (None, table)
  end.

Definition get_birthdays (start_date end_date : Z) (table : list Contact.t)
    : list Contact.t :=
  filter (λ c, (start_date ≤ Contact.birth_date c)%Z ∧
               (Contact.birth_date c ≤ end_date)%Z) table.

(** *** src/routes/contacts.py *)

(** A route with [dependencies=[Depends(gate)]]: the gate is evaluated on the
    resolved user before the handler runs. *)
Definition guarded {A : Type} (gate : User.t → outcome unit)
    (current_user : User.t)
    (handler : list Contact.t → outcome A * list Contact.t)
    (table : list Contact.t) : outcome A * list Contact.t :=
  match gate current_user with
  | Raises e => (Raises e, table)
  | Returns _ => handler table
  end.

Definition not_found {A : Type} : outcome A :=
  Raises (HTTPException HTTP_404_NOT_FOUND "Not Found" []).

Definition get_contact (current_user : User.t) (id : Z)
    : list Contact.t → outcome Contact.t * list Contact.t :=
  guarded allowed_operation_get current_user (λ table,
    match get_contact_by_id id table with
    | None => (not_found, table)
    | Some (_, contact) => (Returns contact, table)
    end).

Definition create_contacts (current_user : User.t) (body : Contact.t)
    : list Contact.t → outcome Contact.t * list Contact.t :=
  guarded allowed_operation_create current_user (λ table,
    match get_contact_by_email (Contact.email body) table with
    | Some _ =>
        (Raises (HTTPException HTTP_409_CONFLICT "Email is exists!" []), table)
    | None => let '(contact, table) := create body table in
              (Returns contact, table)
    end).

Definition update_contact (current_user : User.t) (body : Contact.t) (id : Z)
    : list Contact.t → outcome Contact.t * list Contact.t :=
  guarded allowed_operation_update current_user (λ table,
    match update id body table with
    | (None, table) => (not_found, table)
    | (Some contact, table) => (Returns contact, table)
    end).

Definition remove_contact (current_user : User.t) (id : Z)
    : list Contact.t → outcome Contact.t * list Contact.t :=
  guarded allowed_operation_remove current_user (λ table,
    match remove id table with
    | (None, table) => (not_found, table)
    | (Some contact, table) => (Returns contact, table)
    end).

(** The route [get_birthdays]; [today] is [date.today()]. *)
Definition birthdays_route (current_user : User.t) (today : Z)
    : list Contact.t → outcome (list Contact.t) * list Contact.t :=
  guarded allowed_operation_get current_user (λ table,
    let end_date := today + 7 in
    (Returns (get_birthdays today end_date table), table)).

(** ** main.py *)

(** [ipaddress.ip_address]: the version and the address as a number. *)
Inductive ip_address : Type :=
  | IPv4Address (n : Z)
  | IPv6Address (n : Z).

#[global] Instance ip_address_eq_dec : EqDecision ip_address.
Proof. solve_decision. Defined.

(** The dotted quad [a.b.c.d]. *)
Definition ipv4 (a b c d : Z) : ip_address :=
  IPv4Address (((a * 256 + b) * 256 + c) * 256 + d).

Definition ALLOWED_IPS : list ip_address :=
  [ipv4 192 168 1 0; ipv4 172 16 0 0; ipv4 127 0 0 1].

(** What a middleware answers: its own JSON response, or the response the
    rest of the application gave. *)
Inductive answer (R : Type) : Type :=
  | JSONResponse (status_code : Z) (detail : string)
  | Passed (response : R).
Arguments JSONResponse {R} status_code detail.
Arguments Passed {R} response.

(** [ip] is [ip_address(request.client.host)]; [call_next] runs the rest of
    the application on its state. *)
Definition limit_access_by_ip {S R : Type} (ip : ip_address)
    (call_next : S → R * S) (s : S) : answer R * S :=
  if decide (ip ∉ ALLOWED_IPS)
  then (JSONResponse HTTP_403_FORBIDDEN "Not allowed IP address", s)
  else let '(response, s) := call_next s in (Passed response, s).

(** [try: ... except Exception: raise HTTPException(500, ...)]: every
    exception of the body, an [HTTPException] included, is replaced. *)
Definition healthchecker (select_1 : outcome (option unit)) : outcome string :=
  let body :=
    match select_1 with
    | Raises e => Raises e
    | Returns None =>
        Raises (HTTPException 500 "Database is not configured correctly" [])
    | Returns (Some _) => Returns "Welcome to FastAPI!"
    end in
  match body with
  | Raises _ => Raises (HTTPException 500 "Error connecting to the database" [])
  | Returns message => Returns message
  end.

(** ** A small concrete instance

    A deployment small enough to evaluate: a table-driven token codec, a
    transparent password context and a pickle that knows the two users of
    the table. *)

Module Demo.

Definition clock (k : nat) : Z := 1700000000000000 + Z.of_nat k * 1000.

(** [jwt.encode] writes a [datetime] claim as whole seconds since the
    epoch: the microseconds are dropped. *)
Definition whole_second (t : Z) : Z := t `div` 1000000.

Definition show_claim (o : option pyval) : string :=
  match o with
  | Some (PyDatetime t) => pretty (whole_second t)
  | Some (PyJ j) => py_str j
  | None => "-"
  end.

(** The token spells out its claims, as [jwt.encode] serializes them, and
    the key it was signed with. *)
Definition encode_claims (d : gmap string pyval) (key alg : string) : string :=
  show_claim (d !! "exp") +:+ "." +:+ show_claim (d !! "iat") +:+ "." +:+
  show_claim (d !! "scope") +:+ "." +:+ show_claim (d !! "sub") +:+ "." +:+ key.

Definition claims (sub scope : string) (iat exp : Z) : gmap string pyval :=
  signed_claims {["sub" := PyJ (JStr sub)]} scope iat exp.

Definition access_claims : gmap string pyval :=
  claims "alice@example.com" "access_token" 1700000000000000 1700000900000000.
Definition refresh_claims : gmap string pyval :=
  claims "alice@example.com" "refresh_token" 1700000000000000 1700604800000000.
Definition stale_refresh_claims : gmap string pyval :=
  claims "alice@example.com" "refresh_token" 1699990000000000 1700594800000000.
Definition ghost_refresh_claims : gmap string pyval :=
  claims "ghost@example.com" "refresh_token" 1700000000000000 1700604800000000.
Definition email_claims : gmap string pyval :=
  claims "alice@example.com" "email_token" 1700000000000000 1700604800000000.

(** The claims sets this deployment has signed. *)
Definition signed : list (gmap string pyval) :=
  [access_claims; refresh_claims; stale_refresh_claims; ghost_refresh_claims;
   email_claims].

Definition token_of (d : gmap string pyval) : string :=
  encode_claims d "secret_key" "HS256".

(** [jwt.encode] turns datetimes into whole seconds. *)
Definition to_json (v : pyval) : json :=
  match v with
  | PyJ j => j
  | PyDatetime t => JInt (whole_second t)
  end.

(** [jwt.decode] takes a token for expired when its ["exp"] is less than
    the present time, both in whole seconds. *)
Definition unexpired (now : Z) (d : gmap string pyval) : bool :=
  match d !! "exp" with
  | Some (PyDatetime t) => bool_decide (¬ (whole_second t < whole_second now)%Z)
  | _ => true
  end.

Definition decode_token (token key : string) (algs : list string) (now : Z)
    : option (gmap string json) :=
  match list_find (λ d, encode_claims d key "HS256" = token) signed with
  | Some (_, d) =>
      if bool_decide ("HS256" ∈ algs) && unexpired now d
      then Some (to_json <$> d) else None
  | None => None
  end.

#[export] Instance jose : Jose :=
  {| jwt_encode := encode_claims; jwt_decode := decode_token |}.

Definition is_bcrypt (h : string) : bool := String.prefix "$2b$" h.

#[export] Instance crypt_context : CryptContext :=
  {| ctx_verify plain h :=
       if is_bcrypt h then Returns (bool_decide (h = "$2b$" +:+ plain))
       else Raises (ValueError "hash could not be identified") |}.

Definition alice : User.t :=
  User.mk 1 "alice1" "alice@example.com" "$2b$s3cret77" None Role.user true
          (Some (token_of refresh_claims)).

Definition bob : User.t :=
  User.mk 2 "bobby1" "bob@example.com" "$2b$hunter22" None Role.moderator false
          None.

Definition dumps (o : option User.t) : string :=
  match o with
  | None => "N"
  | Some u => "U" +:+ User.email u
  end.

Definition loads (blob : string) : outcome (option User.t) :=
  if decide (blob = "N") then Returns None
  else match list_find (λ u, dumps (Some u) = blob) [alice; bob] with
       | Some (_, u) => Returns (Some u)
       | None => Raises UnpicklingError
       end.

#[export] Instance pickle : Pickle :=
  {| pickle_dumps := dumps; pickle_loads := loads |}.

(** Alice and Bob registered, nothing cached. *)
Definition world : World :=
  {| db := [alice; bob]; r := ∅; ticks := 0 |}.

(** The same with Alice's row cached, without a time to live. *)
Definition warm_world : World :=
  {| db := [alice; bob];
     r := {["user:alice@example.com" :=
              {| value := dumps (Some alice); deadline := None |}]};
     ticks := 0 |}.

(** The float [1e-7]: not zero, and [timedelta(seconds=1e-7)] is
    [timedelta(0)]. *)
Definition tenth_of_a_microsecond : pyfloat :=
  {| float_bool := true; float_timedelta := Returns 0 |}.

Definition alice_login : LoginForm :=
  {| form_username := "alice@example.com"; form_password := "s3cret77" |}.
Definition alice_wrong_password : LoginForm :=
  {| form_username := "alice@example.com"; form_password := "letmein" |}.
Definition nobody_login : LoginForm :=
  {| form_username := "nobody@example.com"; form_password := "s3cret77" |}.

End Demo.

(** The instance extended: the codec also knows the tokens a login of Alice
    issues at the first clock readings and verification tokens for Bob and
    a newcomer; a hasher that agrees with the password context; the columns
    a new row gets; a contacts table. *)
Module Demo2.
Import Demo.

Definition login_access_claims : gmap string pyval :=
  issued_access_claims clock 0 (JStr "alice@example.com").
Definition login_refresh_claims : gmap string pyval :=
  issued_refresh_claims clock 0 (JStr "alice@example.com").
Definition bob_email_claims : gmap string pyval :=
  claims "bob@example.com" "email_token" 1700000000000000 1700604800000000.
Definition carol_email_claims : gmap string pyval :=
  claims "carol@example.com" "email_token" 1700000000000000 1700604800000000.

Definition signed : list (gmap string pyval) :=
  (Demo.signed ++ [login_access_claims; login_refresh_claims;
                   bob_email_claims; carol_email_claims])%list.

Definition decode_token (token key : string) (algs : list string) (now : Z)
    : option (gmap string json) :=
  match list_find (λ d, encode_claims d key "HS256" = token) signed with
  | Some (_, d) =>
      if bool_decide ("HS256" ∈ algs) && unexpired now d
      then Some (to_json <$> d) else None
  | None => None
  end.

#[export] Instance jose : Jose :=
  {| jwt_encode := encode_claims; jwt_decode := decode_token |}.

#[export] Instance hasher : PasswordHasher :=
  {| ctx_hash salt password := Returns ("$2b$" +:+ password) |}.

#[export] Instance gravatar : Gravatar :=
  {| get_image email := "https://www.gravatar.com/avatar/" +:+ email |}.

Definition columns : UserColumns :=
  {| next_id table := 1 + Z.of_nat (length table);
     default_roles := Role.user;
     default_confirmed := false;
     default_refresh_token := None |}.

Definition carol : UserModel :=
  {| um_username := "carol1"; um_email := "carol@example.com";
     um_password := "pass1234" |}.

Definition carol_row : User.t :=
  User.mk 3 "carol1" "carol@example.com" "$2b$pass1234"
          (Some "https://www.gravatar.com/avatar/carol@example.com")
          Role.user false None.

Definition admin_user : User.t :=
  User.mk 9 "root01" "root@example.com" "$2b$toor1234" None Role.admin true
          None.

Definition ann : Contact.t :=
  Contact.mk 1 "Ann" "Lee" "ann@example.com" "555-0100" 7000 None.
Definition ben : Contact.t :=
  Contact.mk 2 "Ben" "Ray" "ben@example.com" "555-0101" 19680 (Some "gym").
Definition contacts : list Contact.t := [ann; ben].

(** A body for Ann's id that carries Ben's email and other names. *)
Definition ann_body : Contact.t :=
  Contact.mk 1 "Anna" "Leigh" "ben@example.com" "555-0199" 7001 (Some "vip").

End Demo2.

(** Another instance: the table holds a row whose email is the empty string,
    and an access token has been signed for the empty subject. *)
Module Demo3.
Import Demo.

Definition anonymous_claims : gmap string pyval :=
  claims "" "access_token" 1700000000000000 1700000900000000.

Definition signed : list (gmap string pyval) := [anonymous_claims].

Definition decode_token (token key : string) (algs : list string) (now : Z)
    : option (gmap string json) :=
  match list_find (λ d, encode_claims d key "HS256" = token) signed with
  | Some (_, d) =>
      if bool_decide ("HS256" ∈ algs) && unexpired now d
      then Some (to_json <$> d) else None
  | None => None
  end.

Definition jose : Jose :=
  {| jwt_encode := encode_claims; jwt_decode := decode_token |}.

Definition nameless : User.t :=
  User.mk 3 "nameless" "" "$2b$qwerty12" None Role.user true None.

Definition world : World :=
  {| db := [alice; nameless]; r := ∅; ticks := 0 |}.

End Demo3.

(** ** Properties *)

(** Unfolds the handlers and the monad, leaving map and list operations
    alone. *)
Ltac run :=
  cbv beta iota zeta delta
    [bind ret raise lift utcnow decode r_get r_set r_expire
     get_user_by_email update_token verify_password truthy
     create_access_token create_refresh_token create_email_token
     get_current_user decode_refresh_token get_email_from_token
     login refresh_token tick set_db set_r fst snd];
  cbn [db r ticks].

Ltac run_in H :=
  cbv beta iota zeta delta
    [bind ret raise lift utcnow decode r_get r_set r_expire
     get_user_by_email update_token verify_password truthy
     create_access_token create_refresh_token create_email_token
     get_current_user decode_refresh_token get_email_from_token
     login refresh_token tick set_db set_r fst snd] in H;
  cbn [db r ticks] in H.

(** Opens [refresh_token] up to its first step, the decoding of the
    presented token. *)
Ltac open_refresh := unfold refresh_token, bind.
Ltac open_refresh_in H := unfold refresh_token, bind in H.
Ltac open_expires_after := unfold expires_after.

Section Properties.
Context (clock : nat → Z) (settings : Settings).
Context `{!Jose, !CryptContext, !Pickle}.

Abbreviation encode := (encode settings).
Abbreviation create_access_token := (create_access_token clock settings).
Abbreviation create_refresh_token := (create_refresh_token clock settings).
Abbreviation create_email_token := (create_email_token clock settings).
Abbreviation get_current_user := (get_current_user clock settings).
Abbreviation get_email_from_token := (get_email_from_token clock settings).
Abbreviation decode_refresh_token := (decode_refresh_token clock settings).
Abbreviation login := (login clock settings).
Abbreviation refresh_token := (refresh_token clock settings).
Abbreviation expires_after := (expires_after settings).

Lemma signed_claims_exp data scope iat exp :
  signed_claims data scope iat exp !! "exp" = Some (PyDatetime exp).
Proof.
  unfold signed_claims.
  rewrite lookup_insert_ne by done. apply lookup_insert_eq.
Qed.

(** *** Token constructors *)

Lemma create_access_token_default data w :
  create_access_token data None w =
    (Returns (encode (signed_claims data "access_token"
                        (clock (S (ticks w)))
                        (clock (ticks w) + timedelta_minutes 15))),
     tick (tick w)).
Proof. reflexivity. Qed.

Lemma create_access_token_falsy data x w :
  float_bool x = false →
  create_access_token data (Some x) w = create_access_token data None w.
Proof. intros Hx. run. rewrite Hx. reflexivity. Qed.

Lemma create_access_token_explicit data x delta w :
  float_bool x = true →
  float_timedelta x = Returns delta →
  (datetime_min ≤ clock (ticks w) + delta ≤ datetime_max)%Z →
  create_access_token data (Some x) w =
    (Returns (encode (signed_claims data "access_token"
                        (clock (S (ticks w)))
                        (clock (ticks w) + delta))),
     tick (tick w)).
Proof.
  intros Hx Hd Hrange. run. rewrite Hx, Hd. unfold datetime_add.
  destruct (decide _) as [_ | Hn]; [reflexivity | done].
Qed.

Lemma create_access_token_raises data x w :
  float_bool x = true →
  (create_access_token data (Some x) w).1 =
    match float_timedelta x with
    | Returns delta =>
        match datetime_add (clock (ticks w)) delta with
        | Returns expire =>
            Returns (encode (signed_claims data "access_token"
                               (clock (S (ticks w))) expire))
        | Raises e => Raises e
        end
    | Raises e => Raises e
    end.
Proof.
  intros Hx. run. rewrite Hx.
  destruct (float_timedelta x) as [delta | e]; [| reflexivity].
  destruct (datetime_add _ _); reflexivity.
Qed.

Lemma whole_seconds_timedelta s :
  (timedelta_min_seconds ≤ s ≤ timedelta_max_seconds)%Z →
  float_timedelta (whole_seconds s) = Returns (s * 1000000).
Proof.
  intros Hs. unfold whole_seconds. cbn.
  destruct (decide _); [reflexivity | done].
Qed.

Lemma create_refresh_token_default data w :
  create_refresh_token data None w =
    (Returns (encode (signed_claims data "refresh_token"
                        (clock (S (ticks w)))
                        (clock (ticks w) + timedelta_days 7))),
     tick (tick w)).
Proof. reflexivity. Qed.

Lemma create_email_token_eq data w :
  create_email_token data w =
    (Returns (encode (signed_claims data "email_token"
                        (clock (S (ticks w)))
                        (clock (ticks w) + timedelta_days 7))),
     tick (tick w)).
Proof. reflexivity. Qed.

(** C9 (as amended): an access token issued with no explicit lifetime
    expires exactly 15 minutes (900 s) after issuance.  With an explicit
    lifetime that is not zero it expires exactly
    [timedelta(seconds=lifetime)] after issuance, provided that [timedelta]
    and the expiry are within what [timedelta] and [datetime] hold: that
    many seconds for a whole number of seconds, the lifetime rounded to
    microseconds otherwise; out of range the constructor raises (an
    [OverflowError] for the expiry) and issues no token; a lifetime of zero
    counts as none and gives the default.  A refresh token issued with no
    explicit lifetime expires exactly 7 days after issuance, an
    email-verification token always exactly 7 days after issuance.
    Issuance is the clock reading the lifetime is added to. *)
Theorem C9_token_lifetimes (data : gmap string pyval) (w : World) :
  let issued := clock (ticks w) in
  expires_after (create_access_token data None w) issued (900 * 1000000) ∧
  (∀ (x : pyfloat) (delta : Z),
     float_bool x = true →
     float_timedelta x = Returns delta →
     (datetime_min ≤ issued + delta ≤ datetime_max)%Z →
     expires_after (create_access_token data (Some x) w) issued delta) ∧
  (∀ s : Z,
     s ≠ 0 →
     (timedelta_min_seconds ≤ s ≤ timedelta_max_seconds)%Z →
     (datetime_min ≤ issued + s * 1000000 ≤ datetime_max)%Z →
     expires_after (create_access_token data (Some (whole_seconds s)) w)
                   issued (s * 1000000)) ∧
  (∀ x : pyfloat,
     float_bool x = true →
     match float_timedelta x with
     | Returns delta =>
         ¬ (datetime_min ≤ issued + delta ≤ datetime_max)%Z →
         (create_access_token data (Some x) w).1 = Raises OverflowError
     | Raises e => (create_access_token data (Some x) w).1 = Raises e
     end) ∧
  (∀ x : pyfloat,
     float_bool x = false →
     create_access_token data (Some x) w = create_access_token data None w) ∧
  expires_after (create_refresh_token data None w) issued
                (7 * 86400 * 1000000) ∧
  expires_after (create_email_token data w) issued (7 * 86400 * 1000000).
Proof.
  intros issued. open_expires_after. split_and!.
  - rewrite create_access_token_default. eexists. split; [reflexivity |].
    apply signed_claims_exp.
  - intros x delta Hx Hd Hrange.
    rewrite (create_access_token_explicit _ _ _ _ Hx Hd Hrange).
    eexists. split; [reflexivity |]. apply signed_claims_exp.
  - intros s Hs Htd Hrange.
    rewrite (create_access_token_explicit _ (whole_seconds s) (s * 1000000)).
    + eexists. split; [reflexivity |]. apply signed_claims_exp.
    + apply bool_decide_eq_true_2, Hs.
    + apply whole_seconds_timedelta, Htd.
    + exact Hrange.
  - intros x Hx. rewrite (create_access_token_raises _ _ _ Hx).
    destruct (float_timedelta x) as [delta | e]; [| reflexivity].
    intros Hout. unfold datetime_add.
    destruct (decide _) as [Hin | _]; [done | reflexivity].
  - intros x Hx. apply create_access_token_falsy, Hx.
  - rewrite create_refresh_token_default. eexists. split; [reflexivity |].
    apply signed_claims_exp.
  - rewrite create_email_token_eq. eexists. split; [reflexivity |].
    apply signed_claims_exp.
Qed.

(** *** The role gate *)

(** C6: a gate built with an allow-set lets a principal through exactly
    when the principal's role is listed, and raises 403 otherwise; there is
    no hierarchy (a gate that lists only moderator and user rejects admin);
    the read gate lists admin, moderator and user, the update gate admin
    and moderator, the delete gate admin only; the update gate rejects
    role user and accepts moderator and admin. *)
Theorem C6_role_gate (allowed_roles : list Role.t) (u : User.t) :
  RoleAccess allowed_roles u =
    (if decide (User.roles u ∈ allowed_roles) then Returns tt
     else Raises (HTTPException 403 "Operation forbidden" [])) ∧
  (RoleAccess allowed_roles u = Returns tt ↔ User.roles u ∈ allowed_roles) ∧
  (RoleAccess [Role.moderator; Role.user] u = Returns tt ↔
     User.roles u ≠ Role.admin) ∧
  allowed_operation_get u = Returns tt ∧
  allowed_operation_update u =
    match User.roles u with
    | Role.admin | Role.moderator => Returns tt
    | Role.user => Raises (HTTPException 403 "Operation forbidden" [])
    end ∧
  allowed_operation_remove u =
    match User.roles u with
    | Role.admin => Returns tt
    | Role.moderator | Role.user =>
        Raises (HTTPException 403 "Operation forbidden" [])
    end.
Proof.
  assert (Hgate : ∀ l, RoleAccess l u =
    (if decide (User.roles u ∈ l) then Returns tt
     else Raises (HTTPException 403 "Operation forbidden" []))).
  { intros l. unfold RoleAccess.
    destruct (decide (User.roles u ∉ l)), (decide (User.roles u ∈ l));
      done. }
  split_and!.
  - apply Hgate.
  - rewrite Hgate. destruct (decide (User.roles u ∈ allowed_roles)); naive_solver.
  - unfold RoleAccess. destruct (User.roles u); vm_compute; naive_solver.
  - unfold allowed_operation_get, RoleAccess.
    destruct (User.roles u); reflexivity.
  - unfold allowed_operation_update, RoleAccess.
    destruct (User.roles u); reflexivity.
  - unfold allowed_operation_remove, RoleAccess.
    destruct (User.roles u); reflexivity.
Qed.

(** *** The users table *)

(** Updating a row in place by a function that leaves the searched
    property alone does not move the first match. *)
Lemma list_find_alter {A} (P : A → Prop) `{!∀ x, Decision (P x)}
    (f : A → A) (i : nat) (l : list A) :
  (∀ x, P (f x) ↔ P x) →
  list_find P (alter f i l) =
    (λ p, (p.1, if decide (p.1 = i) then f p.2 else p.2)) <$> list_find P l.
Proof.
  intros Hf. revert i. induction l as [|x l IH]; intros i; [done |].
  destruct i as [|i]; simpl.
  - destruct (decide (P (f x))) as [HP|HP], (decide (P x)) as [HP'|HP'].
    + done.
    + exfalso. by apply HP', Hf.
    + exfalso. by apply HP, Hf.
    + destruct (list_find P l) as [[j y]|]; done.
  - destruct (decide (P x)); [done |].
    change (list_alter f i l) with (alter f i l).
    rewrite IH. destruct (list_find P l) as [[j y]|]; simpl; [|done].
    do 2 case_decide; (done || lia).
Qed.

Lemma find_after_update_token (email : json) (tok : option string)
    (i j : nat) (u : User.t) (table : list User.t) :
  list_find (λ u, JStr (User.email u) = email) table = Some (j, u) →
  list_find (λ u, JStr (User.email u) = email)
            (alter (User.set_refresh_token tok) i table) =
    Some (j, if decide (j = i) then User.set_refresh_token tok u else u).
Proof.
  intros Hfind. rewrite list_find_alter by done. by rewrite Hfind.
Qed.

(** *** Email verification tokens *)

(** C4: the code at the failing inputs.  A token that decodes under the
    process secret and carries a scope other than ["email_token"] makes
    [get_email_from_token] fall off its end: it returns [None] and raises
    nothing. *)
Theorem C4_wrong_scope_returns_none (token : string) (w : World)
    (payload : gmap string json) (scope : json) :
  jwt_decode token (secret_key settings) [algorithm settings]
             (clock (ticks w)) = Some payload →
  payload !! "scope" = Some scope →
  scope ≠ JStr "email_token" →
  get_email_from_token token w = (Returns JNull, tick w).
Proof.
  intros Hdec Hscope Hne. run. rewrite Hdec, Hscope.
  by destruct (decide (scope = JStr "email_token")).
Qed.

(** *** Refresh *)

Lemma decode_refresh_token_ok (token : string) (w : World)
    (payload : gmap string json) (email : json) :
  jwt_decode token (secret_key settings) [algorithm settings]
             (clock (ticks w)) = Some payload →
  payload !! "scope" = Some (JStr "refresh_token") →
  payload !! "sub" = Some email →
  decode_refresh_token token w = (Returns email, tick w).
Proof. intros Hdec Hscope Hsub. run. by rewrite Hdec, Hscope, Hsub. Qed.

(** C10: when the presented token decodes with the refresh scope and no row
    has its subject as email, [refresh_token] raises [AttributeError] on
    [user.refresh_token]; the error is not an [HTTPException], and nothing
    was written. *)
Theorem C10_refresh_without_principal (token : string) (w : World)
    (payload : gmap string json) (email : json) :
  jwt_decode token (secret_key settings) [algorithm settings]
             (clock (ticks w)) = Some payload →
  payload !! "scope" = Some (JStr "refresh_token") →
  payload !! "sub" = Some email →
  list_find (λ u, JStr (User.email u) = email) (db w) = None →
  refresh_token token w =
    (Raises (AttributeError
               "'NoneType' object has no attribute 'refresh_token'"),
     tick w) ∧
  (∀ e, (refresh_token token w).1 = Raises e → is_http e = false).
Proof.
  intros Hdec Hscope Hsub Hfind.
  assert (Hrun : refresh_token token w =
    (Raises (AttributeError
               "'NoneType' object has no attribute 'refresh_token'"),
     tick w)).
  { open_refresh.
    rewrite (decode_refresh_token_ok _ _ _ _ Hdec Hscope Hsub).
    run. by rewrite Hfind. }
  split; [done |]. rewrite Hrun. intros e [= <-]. done.
Qed.

Lemma refresh_token_mismatch_run (token : string) (w : World)
    (payload : gmap string json) (email : json) (i : nat) (u : User.t) :
  jwt_decode token (secret_key settings) [algorithm settings]
             (clock (ticks w)) = Some payload →
  payload !! "scope" = Some (JStr "refresh_token") →
  payload !! "sub" = Some email →
  list_find (λ u, JStr (User.email u) = email) (db w) = Some (i, u) →
  User.refresh_token u ≠ Some token →
  refresh_token token w =
    (Raises (HTTPException 401 "Invalid refresh token" []),
     set_db (alter (User.set_refresh_token None) i (db w)) (tick w)).
Proof.
  intros Hdec Hscope Hsub Hfind Hne.
  open_refresh.
  rewrite (decode_refresh_token_ok _ _ _ _ Hdec Hscope Hsub).
  run. rewrite Hfind. run.
  by destruct (decide (User.refresh_token u ≠ Some token)).
Qed.

(** C2: when the presented token decodes with the refresh scope, its
    subject has a row and the token stored in that row is not the presented
    one, [refresh_token] sets the stored token of that row to [None],
    commits, and raises 401 "Invalid refresh token"; it returns no tokens
    and creates none. *)
Theorem C2_refresh_mismatch (token : string) (w : World)
    (payload : gmap string json) (email : json) (i : nat) (u : User.t) :
  jwt_decode token (secret_key settings) [algorithm settings]
             (clock (ticks w)) = Some payload →
  payload !! "scope" = Some (JStr "refresh_token") →
  payload !! "sub" = Some email →
  list_find (λ u, JStr (User.email u) = email) (db w) = Some (i, u) →
  User.refresh_token u ≠ Some token →
  let w' := (refresh_token token w).2 in
  (refresh_token token w).1 =
    Raises (HTTPException 401 "Invalid refresh token" []) ∧
  db w' = alter (User.set_refresh_token None) i (db w) ∧
  stored_refresh_token email w' = Some None ∧
  r w' = r w ∧
  ticks w' = S (ticks w).
Proof.
  intros Hdec Hscope Hsub Hfind Hne.
  cbv zeta.
  rewrite (refresh_token_mismatch_run _ _ _ _ _ _ Hdec Hscope Hsub Hfind Hne).
  cbn [fst snd set_db tick db r ticks].
  split_and!; try done.
  unfold stored_refresh_token. cbn [db set_db tick].
  rewrite (find_after_update_token _ _ _ _ _ _ Hfind).
  by rewrite decide_True.
Qed.

(** *** Login *)

(** C5 (as amended): a login with an email that has no row and a login
    with the email of a row whose password does not verify both fail with
    status 401 and write nothing, but with different details: "Invalid
    email" for the first, and for the second "Invalid password", or "Email
    not confirmad" when the row is not confirmed.  The two responses are
    never equal. *)
Theorem C5_login_failures_differ (w : World) (unknown known : LoginForm)
    (i : nat) (u : User.t) :
  list_find (λ u, JStr (User.email u) = JStr (form_username unknown))
            (db w) = None →
  list_find (λ u, JStr (User.email u) = JStr (form_username known))
            (db w) = Some (i, u) →
  verify_password (form_password known) (User.password u) = Returns false →
  login unknown w = (Raises (HTTPException 401 "Invalid email" []), w) ∧
  login known w =
    (Raises (HTTPException 401
               (if User.confirmed u then "Invalid password"
                else "Email not confirmad") []), w) ∧
  (login unknown w).1 ≠ (login known w).1.
Proof.
  intros Hnone Hsome Hverify.
  assert (Hunknown : login unknown w =
               (Raises (HTTPException 401 "Invalid email" []), w)).
  { run. by rewrite Hnone. }
  assert (Hknown : login known w =
    (Raises (HTTPException 401
               (if User.confirmed u then "Invalid password"
                else "Email not confirmad") []), w)).
  { run. rewrite Hsome. run. destruct (User.confirmed u); [|done].
    cbn [negb]. unfold verify_password in Hverify. by rewrite Hverify. }
  split_and!; [done.. |]. rewrite Hunknown, Hknown. cbn [fst].
  destruct (User.confirmed u); discriminate.
Qed.

(** *** Rotation of the refresh token *)

Lemma login_success (body : LoginForm) (w w' : World) (toks : TokenModel.t) :
  login body w = (Returns toks, w') →
  ∃ i u,
    list_find (λ u, JStr (User.email u) = JStr (form_username body)) (db w)
      = Some (i, u) ∧
    db w' = alter (User.set_refresh_token
                     (Some (TokenModel.refresh_token toks))) i (db w).
Proof.
  intros Hrun. run_in Hrun.
  destruct (list_find _ (db w)) as [[i u]|] eqn:Hfind; [|done].
  run_in Hrun. destruct (User.confirmed u); [|done]. cbn [negb] in Hrun.
  destruct (ctx_verify _ _) as [[|]|]; try done.
  cbn [negb] in Hrun. injection Hrun as <- <-.
  exists i, u. done.
Qed.

Lemma decode_refresh_token_world (token : string) (w : World) :
  (decode_refresh_token token w).2 = tick w.
Proof.
  run. destruct (jwt_decode _ _ _ _) as [payload|]; [|done].
  destruct (payload !! "scope") as [scope|]; [|done].
  destruct (decide _); [|done].
  by destruct (payload !! "sub").
Qed.

Lemma refresh_success (token : string) (w w' : World) (toks : TokenModel.t)
    (email : json) :
  (decode_refresh_token token w).1 = Returns email →
  refresh_token token w = (Returns toks, w') →
  ∃ i u,
    list_find (λ u, JStr (User.email u) = email) (db w) = Some (i, u) ∧
    User.refresh_token u = Some token ∧
    db w' = alter (User.set_refresh_token
                     (Some (TokenModel.refresh_token toks))) i (db w).
Proof.
  intros Hdec Hrun. open_refresh_in Hrun.
  pose proof (decode_refresh_token_world token w) as Hw.
  destruct (decode_refresh_token token w) as [o w1]. cbn [fst snd] in *.
  subst o w1. run_in Hrun.
  destruct (list_find _ (db w)) as [[i u]|] eqn:Hfind; [|done].
  run_in Hrun.
  destruct (decide (User.refresh_token u ≠ Some token)) as [|Heq]; [done |].
  injection Hrun as <- <-. exists i, u. split_and!; try done.
  by apply dec_stable.
Qed.

(** In any state at most one token refreshes a given principal: the one
    stored in the principal's row. *)
Lemma refresh_valid_unique (t1 t2 : string) (w w1 w2 : World)
    (toks1 toks2 : TokenModel.t) (email : json) :
  (decode_refresh_token t1 w).1 = Returns email →
  (decode_refresh_token t2 w).1 = Returns email →
  refresh_token t1 w = (Returns toks1, w1) →
  refresh_token t2 w = (Returns toks2, w2) →
  t1 = t2.
Proof.
  intros Hd1 Hd2 Hr1 Hr2.
  destruct (refresh_success _ _ _ _ _ Hd1 Hr1) as (i & u & Hf & Hu & _).
  destruct (refresh_success _ _ _ _ _ Hd2 Hr2) as (j & v & Hf' & Hv & _).
  congruence.
Qed.

(** *** Resolving the current principal *)

(** The key an [EXPIRE] has just been applied to is visible until its
    deadline and not after. *)
Lemma redis_get_populated (now t : Z) (key blob : string) (secs : Z)
    (ks : gmap string redis_entry) :
  redis_get now key (redis_expire t key secs (redis_set key blob ks)) =
    if bool_decide (now < t + timedelta_seconds secs) then Some blob
    else None.
Proof.
  unfold redis_expire, redis_set, redis_get.
  rewrite lookup_insert_eq. cbn [live deadline value].
  rewrite lookup_insert_eq. cbn [live deadline value].
  reflexivity.
Qed.

Lemma redis_populated_eq (t : Z) (key blob : string) (secs : Z)
    (ks : gmap string redis_entry) :
  redis_expire t key secs (redis_set key blob ks) =
    <[key := {| value := blob;
                deadline := Some (t + timedelta_seconds secs) |}]> ks.
Proof.
  unfold redis_expire, redis_set.
  rewrite lookup_insert_eq. cbn [live deadline value].
  apply insert_insert_eq.
Qed.

(** The run of [get_current_user] once the token has passed the three
    checks, on a cache hit. *)
Lemma get_current_user_hit (token : string) (w : World)
    (payload : gmap string json) (blob : string) :
  jwt_decode token (secret_key settings) [algorithm settings]
             (clock (ticks w)) = Some payload →
  dict_get "scope" payload = JStr "access_token" →
  dict_get "sub" payload ≠ JNull →
  redis_get (clock (S (ticks w)))
            ("user:" +:+ py_str (dict_get "sub" payload)) (r w) = Some blob →
  get_current_user token w =
    (match pickle_loads blob with
     | Returns (Some u) => Returns u
     | Returns None => Raises credentials_exception
     | Raises e => Raises e
     end, tick (tick w)).
Proof.
  intros Hdec Hscope Hsub Hget. run. rewrite Hdec.
  rewrite decide_True by done. rewrite decide_False by done.
  run. rewrite Hget. by destruct (pickle_loads blob) as [[u|]|e].
Qed.

(** The same on a cache miss. *)
Lemma get_current_user_miss (token : string) (w : World)
    (payload : gmap string json) :
  jwt_decode token (secret_key settings) [algorithm settings]
             (clock (ticks w)) = Some payload →
  dict_get "scope" payload = JStr "access_token" →
  dict_get "sub" payload ≠ JNull →
  let email := dict_get "sub" payload in
  let key := "user:" +:+ py_str email in
  redis_get (clock (S (ticks w))) key (r w) = None →
  get_current_user token w =
    match list_find (λ u, JStr (User.email u) = email) (db w) with
    | None => (Raises credentials_exception, tick (tick w))
    | Some (_, u) =>
        (Returns u,
         tick (set_r (redis_expire (clock (S (S (ticks w)))) key 900
                        (redis_set key (pickle_dumps (Some u)) (r w)))
                     (tick (tick w))))
    end.
Proof.
  intros Hdec Hscope Hsub email key Hget. run. rewrite Hdec.
  rewrite decide_True by done. rewrite decide_False by done.
  run. fold email. fold key. rewrite Hget. cbn [db].
  destruct (list_find _ (db w)) as [[i u]|]; by run.
Qed.

(** C1 (as amended): [get_current_user] returns a user only if the token
    decodes under the configured secret, its scope claim is
    ["access_token"] and its subject is present (not [None]; the test is
    [email is None], which the empty string passes).  For such a token:
    when the cache has
    a live entry under the subject's key, the result is the unpickled
    entry, and neither the table nor the cache is touched; when it has
    none, the user is looked up in the table by email, the call fails with
    the 401 credentials error if there is no row, and otherwise stores the
    pickled row under the key with a time to live of 900 seconds (the entry
    is served until then and not after) and returns the row. *)
Theorem C1_get_current_user (token : string) (w : World) :
  let decoded :=
    jwt_decode token (secret_key settings) [algorithm settings]
               (clock (ticks w)) in
  let t_get := clock (S (ticks w)) in
  let t_expire := clock (S (S (ticks w))) in
  let res := get_current_user token w in
  (∀ u, res.1 = Returns u →
     ∃ payload, decoded = Some payload ∧
                dict_get "scope" payload = JStr "access_token" ∧
                dict_get "sub" payload ≠ JNull) ∧
  (∀ payload,
     decoded = Some payload →
     dict_get "scope" payload = JStr "access_token" →
     dict_get "sub" payload ≠ JNull →
     let email := dict_get "sub" payload in
     let key := "user:" +:+ py_str email in
     match redis_get t_get key (r w) with
     | Some blob =>
         res.1 = match pickle_loads blob with
                 | Returns (Some u) => Returns u
                 | Returns None => Raises credentials_exception
                 | Raises e => Raises e
                 end ∧
         db res.2 = db w ∧ r res.2 = r w
     | None =>
         match list_find (λ u, JStr (User.email u) = email) (db w) with
         | None =>
             res.1 = Raises credentials_exception ∧
             db res.2 = db w ∧ r res.2 = r w
         | Some (_, u) =>
             res.1 = Returns u ∧
             db res.2 = db w ∧
             r res.2 =
               <[key := {| value := pickle_dumps (Some u);
                           deadline := Some (t_expire + 900 * 1000000) |}]>
                 (r w) ∧
             ∀ now, redis_get now key (r res.2) =
                      if bool_decide (now < t_expire + 900 * 1000000)
                      then Some (pickle_dumps (Some u)) else None
         end
     end).
Proof.
  intros decoded t_get t_expire res. split.
  - intros u Hres. subst res. run_in Hres. fold decoded in Hres.
    destruct decoded as [payload|]; [|done].
    exists payload.
    destruct (decide (dict_get "scope" payload = JStr "access_token"));
      [|done].
    destruct (decide (dict_get "sub" payload = JNull)); done.
  - intros payload Hdec Hscope Hsub email key.
    destruct (redis_get t_get key (r w)) as [blob|] eqn:Hget.
    + subst res.
      rewrite (get_current_user_hit _ _ _ _ Hdec Hscope Hsub Hget). done.
    + subst res.
      rewrite (get_current_user_miss _ _ _ Hdec Hscope Hsub Hget).
      fold email.
      destruct (list_find _ (db w)) as [[i u]|]; [|done].
      cbn [fst snd tick set_r db r]. fold key.
      split_and!; [done | done | apply redis_populated_eq |].
      intros now. apply redis_get_populated.
Qed.

(** C8: for a token that passes the checks and names a principal by email,
    a run that misses the cache and a run that hits a cache consistent with
    the same users table return the same user; and the entry the missing
    run leaves behind unpickles, while it lives, to that user whenever
    pickle round-trips it. *)
Theorem C8_cold_warm_equivalent (token : string) (w_cold w_warm : World)
    (payload : gmap string json) (email : string) :
  ticks w_cold = ticks w_warm →
  db w_cold = db w_warm →
  jwt_decode token (secret_key settings) [algorithm settings]
             (clock (ticks w_warm)) = Some payload →
  dict_get "scope" payload = JStr "access_token" →
  dict_get "sub" payload = JStr email →
  cache_consistent (clock (S (ticks w_warm))) w_warm →
  redis_get (clock (S (ticks w_cold))) ("user:" +:+ email) (r w_cold)
    = None →
  is_Some (redis_get (clock (S (ticks w_warm))) ("user:" +:+ email)
                     (r w_warm)) →
  ∃ u,
    (get_current_user token w_warm).1 = Returns u ∧
    (get_current_user token w_cold).1 = Returns u ∧
    (pickle_loads (pickle_dumps (Some u)) = Returns (Some u) →
     ∀ now blob,
       redis_get now ("user:" +:+ email)
                 (r (get_current_user token w_cold).2) = Some blob →
       pickle_loads blob = Returns (Some u)).
Proof.
  intros Hticks Hdb Hdec Hscope Hsub Hcons Hcold [blob Hwarm].
  destruct (Hcons email blob Hwarm) as (i & u & Hfind & Hloads).
  assert (Hsub' : dict_get "sub" payload ≠ JNull) by (by rewrite Hsub).
  exists u. split_and!.
  - rewrite (get_current_user_hit token w_warm payload blob); try done.
    + by rewrite Hloads.
    + by rewrite Hsub.
  - rewrite (get_current_user_miss token w_cold payload); try done.
    + rewrite Hsub, Hdb, Hfind. done.
    + by rewrite Hticks.
    + by rewrite Hsub.
  - intros Hround now blob'.
    rewrite (get_current_user_miss token w_cold payload); try done.
    + rewrite Hsub, Hdb, Hfind. cbn [snd tick set_r r py_str].
      rewrite redis_get_populated. case_bool_decide; [|done].
      by intros [= <-].
    + by rewrite Hticks.
    + by rewrite Hsub.
Qed.

End Properties.

(** ** Further properties of the handlers *)

Section MoreProperties.
Context (clock : nat → Z) (settings : Settings).
Context `{!Jose, !CryptContext, !Pickle}.

Abbreviation login' := (login clock settings).
Abbreviation refresh' := (refresh_token clock settings).
Abbreviation current_user' := (get_current_user clock settings).
Abbreviation decode_now w token :=
  (jwt_decode token (secret_key settings) [algorithm settings]
              (clock (ticks w))).
Abbreviation find_email email w :=
  (list_find (λ u, JStr (User.email u) = email) (db w)).

(** *** Login, case by case *)

Lemma login_eq (body : LoginForm) (w : World) :
  login' body w =
    match find_email (JStr (form_username body)) w with
    | None => (Raises (HTTPException 401 "Invalid email" []), w)
    | Some (i, u) =>
        if User.confirmed u then
          match verify_password (form_password body) (User.password u) with
          | Raises e => (Raises e, w)
          | Returns false =>
              (Raises (HTTPException 401 "Invalid password" []), w)
          | Returns true =>
              let toks :=
                issued_tokens clock settings (ticks w) (JStr (User.email u)) in
              (Returns toks,
               set_db (alter (User.set_refresh_token
                                (Some (TokenModel.refresh_token toks))) i
                             (db w))
                      (tick (tick (tick (tick w)))))
          end
        else (Raises (HTTPException 401 "Email not confirmad" []), w)
    end.
Proof.
  run. destruct (list_find _ (db w)) as [[i u]|]; [|done].
  run. destruct (User.confirmed u); [|done]. cbn [negb].
  unfold verify_password. destruct (ctx_verify _ _) as [[|]|e]; done.
Qed.

(** [login] returns tokens exactly when the email has a row, the row is
    confirmed and the password verifies against the stored hash; the
    response then has token type "bearer", and its two tokens are signed for
    the row's email with the scopes "access_token" and "refresh_token". *)
Theorem login_succeeds_exactly (body : LoginForm) (w : World) :
  ((∃ toks w', login' body w = (Returns toks, w')) ↔
   (∃ i u, find_email (JStr (form_username body)) w = Some (i, u) ∧
           User.confirmed u = true ∧
           verify_password (form_password body) (User.password u)
             = Returns true)) ∧
  (∀ toks w', login' body w = (Returns toks, w') →
     toks = issued_tokens clock settings (ticks w)
                          (JStr (form_username body)) ∧
     TokenModel.token_type toks = "bearer" ∧
     ticks w' = (4 + ticks w)%nat).
Proof.
  rewrite login_eq.
  destruct (find_email (JStr (form_username body)) w) as [[i u]|] eqn:Hfind.
  - apply list_find_Some in Hfind as (_ & [= Hmail] & _).
    destruct (User.confirmed u) eqn:Hc.
    + destruct (verify_password _ _) as [[|]|e] eqn:Hv.
      * rewrite Hmail. split.
        -- split; [intros _; by exists i, u | intros _; eauto].
        -- intros toks w' [= <- <-]. done.
      * split; [|done]. split; [by intros (? & ? & ?)|].
        intros (? & ? & [= <- <-] & _ & ?); congruence.
      * split; [|done]. split; [by intros (? & ? & ?)|].
        intros (? & ? & [= <- <-] & _ & ?); congruence.
    + split; [|done]. split; [by intros (? & ? & ?)|].
      intros (? & ? & [= <- <-] & ? & _); congruence.
  - split; [|done]. split; [by intros (? & ? & ?)|].
    by intros (? & ? & ? & _).
Qed.

(** A login that raises, whatever it raises, leaves the table, the cache
    and the clock as they were. *)
Theorem login_failure_writes_nothing (body : LoginForm) (w w' : World)
    (e : exn) :
  login' body w = (Raises e, w') → w' = w.
Proof.
  rewrite login_eq.
  destruct (find_email _ w) as [[i u]|]; [|by intros [= _ <-]].
  destruct (User.confirmed u); [|by intros [= _ <-]].
  destruct (verify_password _ _) as [[|]|]; [done | |]; by intros [= _ <-].
Qed.

(** *** Refresh, case by case *)

Lemma refresh_token_eq (token : string) (w : World) :
  refresh' token w =
    match decode_now w token with
    | None =>
        (Raises (HTTPException 401 "Could not validate credentials" []),
         tick w)
    | Some payload =>
        match payload !! "scope" with
        | None => (Raises (KeyError "scope"), tick w)
        | Some scope =>
            if decide (scope = JStr "refresh_token") then
              match payload !! "sub" with
              | None => (Raises (KeyError "sub"), tick w)
              | Some email =>
                  match find_email email w with
                  | None =>
                      (Raises (AttributeError
                         "'NoneType' object has no attribute 'refresh_token'"),
                       tick w)
                  | Some (i, u) =>
                      if decide (User.refresh_token u = Some token) then
                        let toks :=
                          issued_tokens clock settings (S (ticks w)) email in
                        (Returns toks,
                         set_db (alter (User.set_refresh_token
                                   (Some (TokenModel.refresh_token toks))) i
                                   (db w))
                                (tick (tick (tick (tick (tick w))))))
                      else
                        (Raises (HTTPException 401 "Invalid refresh token" []),
                         set_db (alter (User.set_refresh_token None) i (db w))
                                (tick w))
                  end
              end
            else
              (Raises (HTTPException 401 "Invalid scope for token" []),
               tick w)
        end
    end.
Proof.
  open_refresh. run.
  destruct (jwt_decode _ _ _ _) as [payload|]; [|done].
  destruct (payload !! "scope") as [scope|]; [|done].
  destruct (decide (scope = JStr "refresh_token")); [|done].
  destruct (payload !! "sub") as [email|]; [|done].
  run. destruct (list_find _ (db w)) as [[i u]|]; [|done].
  run. destruct (decide (User.refresh_token u ≠ Some token)) as [Hne|Heq].
  - by rewrite decide_False.
  - apply dec_stable in Heq. by rewrite decide_True.
Qed.

(** [refresh_token] returns tokens exactly when the presented token decodes,
    carries the scope "refresh_token" and a subject, the subject has a row,
    and the row stores the presented token itself; it then stores the new
    refresh token in that row and answers with token type "bearer". *)
Theorem refresh_succeeds_exactly (token : string) (w : World) :
  ((∃ toks w', refresh' token w = (Returns toks, w')) ↔
   (∃ payload email i u,
      decode_now w token = Some payload ∧
      payload !! "scope" = Some (JStr "refresh_token") ∧
      payload !! "sub" = Some email ∧
      find_email email w = Some (i, u) ∧
      User.refresh_token u = Some token)) ∧
  (∀ toks w', refresh' token w = (Returns toks, w') →
     TokenModel.token_type toks = "bearer" ∧
     ∃ payload email,
       decode_now w token = Some payload ∧
       payload !! "sub" = Some email ∧
       toks = issued_tokens clock settings (S (ticks w)) email ∧
       stored_refresh_token email w'
         = Some (Some (TokenModel.refresh_token toks))).
Proof.
  rewrite refresh_token_eq.
  destruct (decode_now w token) as [payload|] eqn:Hdec; cycle 1.
  { split; [|done]. split; [by intros (? & ? & ?)|].
    by intros (? & ? & ? & ? & ? & _). }
  destruct (payload !! "scope") as [scope|] eqn:Hscope; cycle 1.
  { split; [|done]. split; [by intros (? & ? & ?)|].
    intros (? & ? & ? & ? & [= <-] & ? & _); congruence. }
  destruct (decide (scope = JStr "refresh_token")) as [->|Hne]; cycle 1.
  { split; [|done]. split; [by intros (? & ? & ?)|].
    intros (? & ? & ? & ? & [= <-] & ? & _); congruence. }
  destruct (payload !! "sub") as [email|] eqn:Hsub; cycle 1.
  { split; [|done]. split; [by intros (? & ? & ?)|].
    intros (? & ? & ? & ? & [= <-] & _ & ? & _); congruence. }
  destruct (find_email email w) as [[i u]|] eqn:Hfind; cycle 1.
  { split; [|done]. split; [by intros (? & ? & ?)|].
    intros (? & e' & ? & ? & [= <-] & _ & Hs & Hf & _).
    rewrite Hsub in Hs. injection Hs as <-. congruence. }
  destruct (decide (User.refresh_token u = Some token)) as [Heq|Hne]; cycle 1.
  { split; [|done]. split; [by intros (? & ? & ?)|].
    intros (? & e' & ? & ? & [= <-] & _ & Hs & Hf & Hu).
    rewrite Hsub in Hs. injection Hs as <-.
    rewrite Hfind in Hf. injection Hf as <- <-. done. }
  split.
  - split; [intros _; by exists payload, email, i, u | intros _; eauto].
  - intros toks w' [= <- <-]. split; [done|].
    exists payload, email. split_and!; try done.
    unfold stored_refresh_token. cbn [db set_db tick].
    rewrite (find_after_update_token _ _ _ _ _ _ Hfind).
    by rewrite decide_True.
Qed.

(** *** Rotation of the refresh token, exactly *)

Lemma login_issues (body : LoginForm) (w w' : World) (toks : TokenModel.t) :
  login' body w = (Returns toks, w') →
  toks = issued_tokens clock settings (ticks w) (JStr (form_username body)) ∧
  ticks w' = (4 + ticks w)%nat.
Proof.
  rewrite login_eq.
  destruct (find_email (JStr (form_username body)) w) as [[i u]|] eqn:Hfind;
    [|done].
  apply list_find_Some in Hfind as (_ & [= Hmail] & _).
  destruct (User.confirmed u); [|done].
  destruct (verify_password _ _) as [[|]|e]; try done.
  intros [= <- <-]. by rewrite Hmail.
Qed.

Lemma refresh_issues (token : string) (w w' : World) (toks : TokenModel.t)
    (email : json) :
  (decode_refresh_token clock settings token w).1 = Returns email →
  refresh' token w = (Returns toks, w') →
  toks = issued_tokens clock settings (S (ticks w)) email ∧
  ticks w' = (4 + S (ticks w))%nat.
Proof.
  intros Hdec. rewrite refresh_token_eq. run_in Hdec.
  destruct (decode_now w token) as [payload|]; [|done].
  destruct (payload !! "scope") as [scope|]; [|done].
  destruct (decide (scope = JStr "refresh_token")); [|done].
  destruct (payload !! "sub") as [email'|]; [|done].
  injection Hdec as ->.
  destruct (find_email email w) as [[i u]|]; [|done].
  destruct (decide (User.refresh_token u = Some token)); [|done].
  by intros [= <- <-].
Qed.

(** What [refresh_token] does with a presented token that decodes with the
    refresh scope for a principal whose row stores [current]. *)
Lemma refresh_against_stored (presented current : string) (w : World)
    (payload : gmap string json) (email : json) (i : nat) (u : User.t) :
  decode_now w presented = Some payload →
  payload !! "scope" = Some (JStr "refresh_token") →
  payload !! "sub" = Some email →
  find_email email w = Some (i, u) →
  User.refresh_token u = Some current →
  refresh' presented w =
    if decide (presented = current) then
      let toks := issued_tokens clock settings (S (ticks w)) email in
      (Returns toks,
       set_db (alter (User.set_refresh_token
                        (Some (TokenModel.refresh_token toks))) i (db w))
              (tick (tick (tick (tick (tick w))))))
    else
      (Raises (HTTPException 401 "Invalid refresh token" []),
       set_db (alter (User.set_refresh_token None) i (db w)) (tick w)).
Proof.
  intros Hdec Hscope Hsub Hfind Hcur.
  rewrite refresh_token_eq, Hdec, Hscope.
  rewrite decide_True by done. rewrite Hsub, Hfind, Hcur.
  destruct (decide (presented = current)) as [->|Hne].
  - by rewrite decide_True.
  - rewrite decide_False; [done | congruence].
Qed.

(** C3 (as amended): a successful login and a successful refresh sign a
    new refresh token from the clock readings they take and overwrite the
    single stored refresh token of the principal's row with it.  Presented
    afterwards, while the table is as they left it, a token that decodes
    with the refresh scope for that principal refreshes exactly when it is
    the newly issued string; any other is refused with 401 "Invalid refresh
    token" and clears the stored token.  In particular a token whose claims
    differ from those of the new token (another ["iat"] or ["exp"]) is
    refused.  A previously issued token that is the same string as the new
    one, as when both were issued within the same second, still
    refreshes. *)
Theorem C3_single_valid_refresh_token (w w' : World) (email : json)
    (toks : TokenModel.t) :
  (∃ body, email = JStr (form_username body) ∧
           login' body w = (Returns toks, w')) ∨
  (∃ token, (decode_refresh_token clock settings token w).1 = Returns email ∧
            refresh' token w = (Returns toks, w')) →
  (∃ k : nat, ticks w' = (4 + k)%nat ∧
              toks = issued_tokens clock settings k email) ∧
  stored_refresh_token email w' =
    Some (Some (TokenModel.refresh_token toks)) ∧
  (∀ (w'' : World) (presented : string) (payload : gmap string json),
     db w'' = db w' →
     decode_now w'' presented = Some payload →
     payload !! "scope" = Some (JStr "refresh_token") →
     payload !! "sub" = Some email →
     if decide (presented = TokenModel.refresh_token toks) then
       (refresh' presented w'').1 =
         Returns (issued_tokens clock settings (S (ticks w'')) email)
     else
       (refresh' presented w'').1 =
         Raises (HTTPException 401 "Invalid refresh token" []) ∧
       stored_refresh_token email (refresh' presented w'').2 = Some None) ∧
  (∀ (w'' : World) (presented : string) (payload payload' : gmap string json),
     db w'' = db w' →
     decode_now w'' presented = Some payload →
     payload !! "scope" = Some (JStr "refresh_token") →
     payload !! "sub" = Some email →
     decode_now w'' (TokenModel.refresh_token toks) = Some payload' →
     payload ≠ payload' →
     (refresh' presented w'').1 =
       Raises (HTTPException 401 "Invalid refresh token" [])).
Proof.
  intros Hissued.
  assert (∃ i u,
    list_find (λ u, JStr (User.email u) = email) (db w') =
      Some (i, User.set_refresh_token
                 (Some (TokenModel.refresh_token toks)) u))
    as (i & u & Hstored).
  { destruct Hissued as [(body & -> & Hrun)|(token & Hdec & Hrun)].
    - destruct (login_success _ _ _ _ _ _ Hrun) as (i & u & Hfind & ->).
      exists i, u. rewrite (find_after_update_token _ _ _ _ _ _ Hfind).
      by rewrite decide_True.
    - destruct (refresh_success _ _ _ _ _ _ _ Hdec Hrun)
        as (i & u & Hfind & _ & ->).
      exists i, u. rewrite (find_after_update_token _ _ _ _ _ _ Hfind).
      by rewrite decide_True. }
  assert (Hrefused : ∀ (w'' : World) (presented : string)
                       (payload : gmap string json),
    db w'' = db w' →
    decode_now w'' presented = Some payload →
    payload !! "scope" = Some (JStr "refresh_token") →
    payload !! "sub" = Some email →
    presented ≠ TokenModel.refresh_token toks →
    (refresh' presented w'').1 =
      Raises (HTTPException 401 "Invalid refresh token" []) ∧
    stored_refresh_token email (refresh' presented w'').2 = Some None).
  { intros w'' presented payload Hdb Hdec Hscope Hsub Hne.
    rewrite <- Hdb in Hstored.
    rewrite (refresh_against_stored _ _ _ _ _ _ _
               Hdec Hscope Hsub Hstored eq_refl).
    rewrite decide_False by done. split; [done |].
    unfold stored_refresh_token. cbn [snd db set_db tick].
    rewrite (find_after_update_token _ _ _ _ _ _ Hstored).
    by rewrite decide_True. }
  split_and!.
  - destruct Hissued as [(body & -> & Hrun)|(token & Hdec & Hrun)].
    + destruct (login_issues _ _ _ _ Hrun) as [-> Hticks]. by eexists.
    + destruct (refresh_issues _ _ _ _ _ Hdec Hrun) as [-> Hticks].
      by eexists.
  - unfold stored_refresh_token. by rewrite Hstored.
  - intros w'' presented payload Hdb Hdec Hscope Hsub.
    destruct (decide (presented = TokenModel.refresh_token toks))
      as [->|Hne]; [| by eapply Hrefused].
    rewrite <- Hdb in Hstored.
    rewrite (refresh_against_stored _ _ _ _ _ _ _
               Hdec Hscope Hsub Hstored eq_refl).
    by rewrite decide_True.
  - intros w'' presented payload payload' Hdb Hdec Hscope Hsub Hdec' Hdiff.
    eapply Hrefused; [done.. |].
    intros ->. rewrite Hdec in Hdec'. by injection Hdec'.
Qed.

(** A presented token that does not decode, or decodes with another scope,
    is refused with 401 and nothing is written: in particular the stored
    refresh token is not cleared.  A decoded token without a "scope" claim,
    or with the refresh scope and no "sub" claim, raises [KeyError]. *)
Theorem refresh_rejects_without_writing (token : string) (w : World) :
  (decode_now w token = None →
   refresh' token w =
     (Raises (HTTPException 401 "Could not validate credentials" []),
      tick w)) ∧
  (∀ payload,
     decode_now w token = Some payload →
     match payload !! "scope" with
     | None => refresh' token w = (Raises (KeyError "scope"), tick w)
     | Some scope =>
         if decide (scope = JStr "refresh_token") then
           payload !! "sub" = None →
           refresh' token w = (Raises (KeyError "sub"), tick w)
         else
           refresh' token w =
             (Raises (HTTPException 401 "Invalid scope for token" []), tick w)
     end).
Proof.
  rewrite refresh_token_eq. split.
  - by intros ->.
  - intros payload ->.
    destruct (payload !! "scope") as [scope|]; [|done].
    destruct (decide (scope = JStr "refresh_token")); [|done].
    by intros ->.
Qed.

(** *** What login and refresh leave alone *)

Lemma same_but_tokens_alter (tok : option string) (i : nat)
    (table : list User.t) :
  same_but_tokens (alter (User.set_refresh_token tok) i table) table.
Proof.
  unfold same_but_tokens.
  rewrite (list_fmap_alter _ (User.set_refresh_token tok) id).
  - by rewrite list_alter_id.
  - by apply Forall_forall.
Qed.

(** Whatever their outcome, [login] and [refresh_token] never add, remove or
    reorder rows, never change a column other than the stored refresh token,
    and never touch the cache. *)
Theorem login_refresh_frame (body : LoginForm) (token : string) (w : World) :
  (same_but_tokens (db (login' body w).2) (db w) ∧
   r (login' body w).2 = r w) ∧
  (same_but_tokens (db (refresh' token w).2) (db w) ∧
   r (refresh' token w).2 = r w).
Proof.
  split.
  - rewrite login_eq.
    destruct (find_email _ w) as [[i u]|]; [|done].
    destruct (User.confirmed u); [|done].
    destruct (verify_password _ _) as [[|]|]; try done.
    cbn [snd db r set_db tick]. split; [apply same_but_tokens_alter | done].
  - rewrite refresh_token_eq.
    destruct (decode_now w token) as [payload|]; [|done].
    destruct (payload !! "scope") as [scope|]; [|done].
    destruct (decide _); [|done].
    destruct (payload !! "sub") as [email|]; [|done].
    destruct (find_email email w) as [[i u]|]; [|done].
    destruct (decide _); cbn [snd db r set_db tick];
      (split; [apply same_but_tokens_alter | done]).
Qed.

(** *** The cache between two resolutions *)

(** After a resolution that missed the cache and stored the row, a later
    resolution of the same subject returns that stored row whatever the
    users table holds by then (changed, or without the row), as long as its
    [GET] comes before the deadline, 900 seconds after the [EXPIRE]; from
    the deadline on it reads the table again. *)
Theorem cache_entry_served_until_deadline (token : string) (w1 w2 : World)
    (payload1 payload2 : gmap string json) (email : string) (i : nat)
    (u : User.t) :
  decode_now w1 token = Some payload1 →
  dict_get "scope" payload1 = JStr "access_token" →
  dict_get "sub" payload1 = JStr email →
  redis_get (clock (S (ticks w1))) ("user:" +:+ email) (r w1) = None →
  find_email (JStr email) w1 = Some (i, u) →
  pickle_loads (pickle_dumps (Some u)) = Returns (Some u) →
  r w2 = r (current_user' token w1).2 →
  decode_now w2 token = Some payload2 →
  dict_get "scope" payload2 = JStr "access_token" →
  dict_get "sub" payload2 = JStr email →
  (current_user' token w1).1 = Returns u ∧
  (current_user' token w2).1 =
    if bool_decide (clock (S (ticks w2))
                    < clock (S (S (ticks w1))) + 900 * 1000000)
    then Returns u
    else match find_email (JStr email) w2 with
         | Some (_, u') => Returns u'
         | None => Raises credentials_exception
         end.
Proof.
  intros Hdec1 Hscope1 Hsub1 Hmiss Hfind Hround Hr Hdec2 Hscope2 Hsub2.
  assert (Hrun1 : current_user' token w1 =
    (Returns u,
     tick (set_r (redis_expire (clock (S (S (ticks w1))))
                    ("user:" +:+ email) 900
                    (redis_set ("user:" +:+ email) (pickle_dumps (Some u))
                               (r w1)))
                 (tick (tick w1))))).
  { rewrite (get_current_user_miss clock settings token w1 payload1);
      rewrite ?Hsub1; try done.
    cbn [py_str]. by rewrite Hfind. }
  rewrite Hrun1 in Hr |- *. cbn [fst snd tick set_r r] in Hr |- *.
  split; [done |].
  pose proof (redis_get_populated (clock (S (ticks w2)))
                (clock (S (S (ticks w1)))) ("user:" +:+ email)
                (pickle_dumps (Some u)) 900 (r w1)) as Hget.
  rewrite <- Hr in Hget. unfold timedelta_seconds in Hget.
  case_bool_decide.
  - rewrite (get_current_user_hit clock settings token w2 payload2
               (pickle_dumps (Some u))); rewrite ?Hsub2; try done.
    by rewrite Hround.
  - rewrite (get_current_user_miss clock settings token w2 payload2);
      rewrite ?Hsub2; try done.
    by destruct (find_email (JStr email) w2) as [[j u']|].
Qed.

(** *** Login followed by a refresh or a resolution *)

(** The refresh token a login returns is accepted by [refresh_token] while
    the table is as the login left it and the token still decodes to the
    scope and subject it was signed with: the refresh succeeds and stores
    its own new refresh token in the row. *)
Theorem login_then_refresh (body : LoginForm) (w w1 w2 : World)
    (toks : TokenModel.t) (payload : gmap string json) :
  login' body w = (Returns toks, w1) →
  db w2 = db w1 →
  decode_now w2 (TokenModel.refresh_token toks) = Some payload →
  payload !! "scope" = Some (JStr "refresh_token") →
  payload !! "sub" = Some (JStr (form_username body)) →
  ∃ toks' w3,
    refresh' (TokenModel.refresh_token toks) w2 = (Returns toks', w3) ∧
    toks' = issued_tokens clock settings (S (ticks w2))
                          (JStr (form_username body)) ∧
    stored_refresh_token (JStr (form_username body)) w3
      = Some (Some (TokenModel.refresh_token toks')).
Proof.
  intros Hlogin Hdb Hdec Hscope Hsub.
  destruct (login_success _ _ _ _ _ _ Hlogin) as (i & u & Hfind & Hdb1).
  assert (Hfind2 : find_email (JStr (form_username body)) w2 =
            Some (i, User.set_refresh_token
                       (Some (TokenModel.refresh_token toks)) u)).
  { rewrite Hdb, Hdb1, (find_after_update_token _ _ _ _ _ _ Hfind).
    by rewrite decide_True. }
  rewrite (refresh_against_stored _ _ _ _ _ _ _
             Hdec Hscope Hsub Hfind2 eq_refl).
  rewrite decide_True by done.
  eexists _, _. split_and!; [reflexivity | reflexivity |].
  unfold stored_refresh_token. cbn [db set_db tick].
  rewrite (find_after_update_token _ _ _ _ _ _ Hfind2).
  by rewrite decide_True.
Qed.

(** The access token a login returns resolves, on a cache without an entry
    for the subject, to the row of the login's email, which by then stores
    the refresh token the login returned. *)
Theorem login_then_current_user (body : LoginForm) (w w1 w2 : World)
    (toks : TokenModel.t) (payload : gmap string json) :
  login' body w = (Returns toks, w1) →
  db w2 = db w1 →
  decode_now w2 (TokenModel.access_token toks) = Some payload →
  dict_get "scope" payload = JStr "access_token" →
  dict_get "sub" payload = JStr (form_username body) →
  redis_get (clock (S (ticks w2))) ("user:" +:+ form_username body) (r w2)
    = None →
  ∃ u,
    (current_user' (TokenModel.access_token toks) w2).1 = Returns u ∧
    User.email u = form_username body ∧
    User.confirmed u = true ∧
    User.refresh_token u = Some (TokenModel.refresh_token toks).
Proof.
  intros Hlogin Hdb Hdec Hscope Hsub Hmiss.
  destruct (login_success _ _ _ _ _ _ Hlogin) as (i & u & Hfind & Hdb1).
  assert (Hconf : User.confirmed u = true).
  { pose proof Hlogin as Hrun. rewrite login_eq, Hfind in Hrun.
    by destruct (User.confirmed u). }
  pose proof Hfind as Hmail.
  apply list_find_Some in Hmail as (_ & [= Hmail] & _).
  exists (User.set_refresh_token (Some (TokenModel.refresh_token toks)) u).
  split_and!; try done.
  rewrite (get_current_user_miss clock settings _ w2 payload);
    rewrite ?Hsub; try done.
  rewrite Hdb, Hdb1, (find_after_update_token _ _ _ _ _ _ Hfind).
  by rewrite decide_True.
Qed.

(** Forced logout: once a refresh with a stale token of a principal has been
    refused, the token that was stored for the principal is refused too,
    with 401 "Invalid refresh token", while the table is as the refusal left
    it. *)
Theorem mismatch_revokes_current_token (stale good : string) (w w2 : World)
    (p_stale p_good : gmap string json) (email : json) (i : nat) (u : User.t) :
  decode_now w stale = Some p_stale →
  p_stale !! "scope" = Some (JStr "refresh_token") →
  p_stale !! "sub" = Some email →
  find_email email w = Some (i, u) →
  User.refresh_token u = Some good →
  stale ≠ good →
  db w2 = db (refresh' stale w).2 →
  decode_now w2 good = Some p_good →
  p_good !! "scope" = Some (JStr "refresh_token") →
  p_good !! "sub" = Some email →
  (refresh' stale w).1 = Raises (HTTPException 401 "Invalid refresh token" []) ∧
  (refresh' good w2).1 = Raises (HTTPException 401 "Invalid refresh token" []).
Proof.
  intros Hd Hs Hsub Hfind Hstored Hne Hdb Hd2 Hs2 Hsub2.
  assert (Hne' : User.refresh_token u ≠ Some stale) by congruence.
  rewrite (refresh_token_mismatch_run clock settings _ _ _ _ _ _
             Hd Hs Hsub Hfind Hne') in Hdb |- *.
  split; [done |]. cbn [snd db set_db tick] in Hdb.
  rewrite (refresh_token_mismatch_run clock settings good w2 p_good email i
             (User.set_refresh_token None u)); try done.
  rewrite Hdb, (find_after_update_token _ _ _ _ _ _ Hfind).
  by rewrite decide_True.
Qed.

End MoreProperties.

(** ** Properties of registration and confirmation *)

Ltac run_registration :=
  cbv beta iota zeta delta
    [bind ret raise lift get_user_by_email signup create_user
     get_password_hash confirmed_email repository_confirmed_email
     request_email tick set_db set_r fst snd];
  cbn [db r ticks].

Ltac open_confirmed_email := unfold confirmed_email, bind.

Section RegistrationProperties.
Context (clock : nat → Z) (settings : Settings) (columns : UserColumns).
Context `{!Jose, !CryptContext, !Pickle, !PasswordHasher, !Gravatar}.

Abbreviation signup' := (signup columns).
Abbreviation confirm' := (confirmed_email clock settings).
Abbreviation find_row email w :=
  (list_find (λ u, JStr (User.email u) = email) (db w)).

Lemma signup_eq (body : UserModel) (salt base_url : string) (w : World) :
  signup' body salt base_url w =
    match find_row (JStr (um_email body)) w with
    | Some _ =>
        (Raises (HTTPException 409 "Account already exists" []), w)
    | None =>
        match get_password_hash salt (um_password body) with
        | Raises e => (Raises e, w)
        | Returns hashed =>
            let new_user :=
              User.mk (next_id columns (db w)) (um_username body)
                      (um_email body) hashed
                      (Some (get_image (um_email body)))
                      (default_roles columns) (default_confirmed columns)
                      (default_refresh_token columns) in
            (Returns (new_user,
                      [{| task_email := um_email body;
                          task_username := um_username body;
                          task_base_url := base_url |}]),
             set_db ((db w ++ [new_user])%list) w)
        end
    end.
Proof.
  run_registration. destruct (list_find _ (db w)) as [[i u]|]; [done |].
  run_registration. by destruct (ctx_hash salt (um_password body)).
Qed.

Lemma find_row_appended (email : string) (table : list User.t) (u : User.t) :
  list_find (λ u, JStr (User.email u) = JStr email) table = None →
  User.email u = email →
  list_find (λ u, JStr (User.email u) = JStr email) (table ++ [u])%list
    = Some (length table, u).
Proof.
  intros Hnone Hmail. rewrite list_find_app_r by done. cbn.
  rewrite decide_True by (by rewrite Hmail). by cbn.
Qed.

(** A signup whose email has no row appends exactly one row, whose username
    and email are the submitted ones and whose password column is the hash
    of the submitted password, and queues one confirmation mail to that
    email; from then on the email is taken: the row is found by it, and a
    second signup with it is refused with 409 and writes nothing. *)
Theorem signup_registers_once (body body2 : UserModel)
    (salt salt2 base_url base_url2 hashed : string) (w : World) :
  find_row (JStr (um_email body)) w = None →
  get_password_hash salt (um_password body) = Returns hashed →
  um_email body2 = um_email body →
  ∃ new_user w',
    signup' body salt base_url w =
      (Returns (new_user,
                [{| task_email := um_email body;
                    task_username := um_username body;
                    task_base_url := base_url |}]), w') ∧
    db w' = (db w ++ [new_user])%list ∧
    r w' = r w ∧
    User.username new_user = um_username body ∧
    User.email new_user = um_email body ∧
    User.password new_user = hashed ∧
    find_row (JStr (um_email body)) w' = Some (length (db w), new_user) ∧
    signup' body2 salt2 base_url2 w' =
      (Raises (HTTPException 409 "Account already exists" []), w').
Proof.
  intros Hnone Hhash Hsame. rewrite signup_eq, Hnone, Hhash. cbv zeta.
  eexists _, _. split; [reflexivity |].
  cbn [db r set_db User.username User.email User.password].
  assert (Hfound := find_row_appended (um_email body) (db w)
    (User.mk (next_id columns (db w)) (um_username body) (um_email body)
       hashed (Some (get_image (um_email body))) (default_roles columns)
       (default_confirmed columns) (default_refresh_token columns))
    Hnone eq_refl).
  split_and!; try done.
  rewrite signup_eq, Hsame. cbn [db set_db]. by rewrite Hfound.
Qed.

(** A signup that raises, whatever it raises (the conflict, or an error of
    the hasher), has written nothing. *)
Theorem signup_failure_writes_nothing (body : UserModel)
    (salt base_url : string) (w w' : World) (e : exn) :
  signup' body salt base_url w = (Raises e, w') → w' = w.
Proof.
  rewrite signup_eq. destruct (find_row _ w); [by intros [= _ <-] |].
  destruct (get_password_hash _ _); [done | by intros [= _ <-]].
Qed.

(** *** Confirmation *)

Lemma confirmed_email_eq (token : string) (w : World) :
  confirm' token w =
    match get_email_from_token clock settings token w with
    | (Raises e, w1) => (Raises e, w1)
    | (Returns email, w1) =>
        match find_row email w1 with
        | None => (Raises (HTTPException 400 "Verification error" []), w1)
        | Some (i, u) =>
            if User.confirmed u
            then (Returns "Your email is already confirmed", w1)
            else (Returns "Email confirmed",
                  set_db (alter set_confirmed i (db w1)) w1)
        end
    end.
Proof.
  open_confirmed_email.
  destruct (get_email_from_token clock settings token w) as [[email|e] w1];
    [|done].
  run_registration. destruct (list_find _ (db w1)) as [[i u]|] eqn:Hf; [|done].
  run_registration. destruct (User.confirmed u); [done |].
  run_registration. by rewrite Hf.
Qed.

Lemma get_email_from_token_ok (token : string) (w : World)
    (payload : gmap string json) (email : json) :
  jwt_decode token (secret_key settings) [algorithm settings]
             (clock (ticks w)) = Some payload →
  payload !! "scope" = Some (JStr "email_token") →
  payload !! "sub" = Some email →
  get_email_from_token clock settings token w = (Returns email, tick w).
Proof. intros Hdec Hscope Hsub. run. by rewrite Hdec, Hscope, Hsub. Qed.

Lemma find_after_confirm (email : json) (i j : nat) (u : User.t)
    (table : list User.t) :
  list_find (λ u, JStr (User.email u) = email) table = Some (j, u) →
  list_find (λ u, JStr (User.email u) = email) (alter set_confirmed i table)
    = Some (j, if decide (j = i) then set_confirmed u else u).
Proof.
  intros Hfind. rewrite list_find_alter by done. by rewrite Hfind.
Qed.

(** With a token that decodes to the scope "email_token" and the email of an
    unconfirmed row, [confirmed_email] answers "Email confirmed" and sets
    the confirmed flag of that row, leaving its other columns, the other
    rows and the cache alone; presented again, the token is answered "Your
    email is already confirmed" and nothing is written. *)
Theorem confirmation_sets_flag_once (token : string) (w w2 : World)
    (payload payload2 : gmap string json) (email : json) (i : nat)
    (u : User.t) :
  jwt_decode token (secret_key settings) [algorithm settings]
             (clock (ticks w)) = Some payload →
  payload !! "scope" = Some (JStr "email_token") →
  payload !! "sub" = Some email →
  find_row email w = Some (i, u) →
  User.confirmed u = false →
  db w2 = db (confirm' token w).2 →
  jwt_decode token (secret_key settings) [algorithm settings]
             (clock (ticks w2)) = Some payload2 →
  payload2 !! "scope" = Some (JStr "email_token") →
  payload2 !! "sub" = Some email →
  confirm' token w =
    (Returns "Email confirmed",
     set_db (alter set_confirmed i (db w)) (tick w)) ∧
  find_row email (confirm' token w).2 = Some (i, set_confirmed u) ∧
  User.confirmed (set_confirmed u) = true ∧
  User.refresh_token (set_confirmed u) = User.refresh_token u ∧
  User.password (set_confirmed u) = User.password u ∧
  User.roles (set_confirmed u) = User.roles u ∧
  confirm' token w2 = (Returns "Your email is already confirmed", tick w2).
Proof.
  intros Hdec Hscope Hsub Hfind Hunconf Hdb Hdec2 Hscope2 Hsub2.
  assert (Hrun : confirm' token w =
    (Returns "Email confirmed",
     set_db (alter set_confirmed i (db w)) (tick w))).
  { rewrite confirmed_email_eq,
      (get_email_from_token_ok _ _ _ _ Hdec Hscope Hsub).
    cbn [db tick]. rewrite Hfind. by rewrite Hunconf. }
  rewrite Hrun in Hdb |- *. cbn [snd db set_db tick] in Hdb |- *.
  assert (Hafter : list_find (λ u, JStr (User.email u) = email)
                     (alter set_confirmed i (db w))
                   = Some (i, set_confirmed u)).
  { rewrite (find_after_confirm _ _ _ _ _ Hfind). by rewrite decide_True. }
  split_and!; try done.
  rewrite confirmed_email_eq,
    (get_email_from_token_ok _ _ _ _ Hdec2 Hscope2 Hsub2).
  cbn [db tick]. by rewrite Hdb, Hafter.
Qed.

(** A token that decodes under the process secret with a scope other than
    "email_token" (an access or a refresh token) cannot confirm any email:
    the route answers 400 "Verification error" and writes nothing. *)
Theorem confirmation_refuses_other_scopes (token : string) (w : World)
    (payload : gmap string json) (scope : json) :
  jwt_decode token (secret_key settings) [algorithm settings]
             (clock (ticks w)) = Some payload →
  payload !! "scope" = Some scope →
  scope ≠ JStr "email_token" →
  confirm' token w =
    (Raises (HTTPException 400 "Verification error" []), tick w).
Proof.
  intros Hdec Hscope Hne. rewrite confirmed_email_eq.
  assert (Hnone : get_email_from_token clock settings token w
                  = (Returns JNull, tick w)).
  { run. rewrite Hdec, Hscope.
    by destruct (decide (scope = JStr "email_token")). }
  rewrite Hnone.
  assert (Hfind : find_row JNull (tick w) = None).
  { apply list_find_None, Forall_forall. by intros u _. }
  by rewrite Hfind.
Qed.

(** *** Registration, confirmation and login in sequence *)

Lemma signup_success (body : UserModel) (salt base_url : string)
    (w w1 : World) (new_user : User.t) (tasks : list EmailTask) :
  signup' body salt base_url w = (Returns (new_user, tasks), w1) →
  find_row (JStr (um_email body)) w1 = Some (length (db w), new_user) ∧
  User.email new_user = um_email body ∧
  User.confirmed new_user = default_confirmed columns.
Proof.
  rewrite signup_eq.
  destruct (find_row (JStr (um_email body)) w) eqn:Hnone; [done |].
  destruct (get_password_hash _ _) as [hashed|]; [|done].
  cbv zeta. intros [= <- _ <-]. cbn [db set_db].
  split_and!; try done. by apply find_row_appended.
Qed.

(** When the schema creates rows unconfirmed, a freshly registered
    principal cannot log in, whatever password is submitted: the answer is
    401 "Email not confirmad".  Once [confirmed_email] has accepted a
    verification token for the email, a login with the registered password
    succeeds, provided the password context verifies it against the stored
    hash. *)
Theorem registration_confirmation_login (body : UserModel)
    (salt base_url : string) (w w1 : World) (new_user : User.t)
    (tasks : list EmailTask) :
  signup' body salt base_url w = (Returns (new_user, tasks), w1) →
  default_confirmed columns = false →
  verify_password (um_password body) (User.password new_user)
    = Returns true →
  (∀ (password : string) (w1' : World),
     db w1' = db w1 →
     login clock settings
           {| form_username := um_email body; form_password := password |}
           w1'
       = (Raises (HTTPException 401 "Email not confirmad" []), w1')) ∧
  (∀ (token : string) (payload : gmap string json) (w2 : World),
     db w2 = db w1 →
     jwt_decode token (secret_key settings) [algorithm settings]
                (clock (ticks w2)) = Some payload →
     payload !! "scope" = Some (JStr "email_token") →
     payload !! "sub" = Some (JStr (um_email body)) →
     ∃ w3,
       confirm' token w2 = (Returns "Email confirmed", w3) ∧
       ∀ w4, db w4 = db w3 →
         ∃ toks w5,
           login clock settings
                 {| form_username := um_email body;
                    form_password := um_password body |} w4
             = (Returns toks, w5) ∧
           TokenModel.token_type toks = "bearer").
Proof.
  intros Hsignup Hdefault Hverify.
  destruct (signup_success _ _ _ _ _ _ _ Hsignup) as (Hfind & Hmail & Hconf).
  rewrite Hdefault in Hconf. split.
  - intros password w1' Hdb. rewrite login_eq. cbn [form_username].
    rewrite Hdb, Hfind. by rewrite Hconf.
  - intros token payload w2 Hdb Hdec Hscope Hsub.
    rewrite <- Hdb in Hfind.
    eexists. split.
    + rewrite confirmed_email_eq,
        (get_email_from_token_ok _ _ _ _ Hdec Hscope Hsub).
      cbn [db tick]. rewrite Hfind. by rewrite Hconf.
    + intros w4 Hdb4. cbn [db set_db tick] in Hdb4.
      rewrite login_eq. cbn [form_username form_password].
      rewrite Hdb4, (find_after_confirm _ _ _ _ _ Hfind).
      rewrite decide_True by done.
      change (User.confirmed (set_confirmed new_user)) with true.
      change (User.password (set_confirmed new_user))
        with (User.password new_user).
      rewrite Hverify. by eexists _, _.
Qed.

(** [request_email] never writes and never raises.  It answers "Your email
    is already confirmed" exactly when the email has a confirmed row, and
    "Check your email for confirmation." otherwise, for an unknown email as
    for an unconfirmed one; it queues a mail, one, addressed to the row's
    email, exactly when the email has an unconfirmed row. *)
Theorem request_email_answers (email base_url : string) (w : World) :
  ∃ message tasks,
    request_email email base_url w = (Returns (message, tasks), w) ∧
    (message = "Your email is already confirmed" ∨
     message = "Check your email for confirmation.") ∧
    (message = "Your email is already confirmed" ↔
     ∃ i u, find_row (JStr email) w = Some (i, u) ∧ User.confirmed u = true) ∧
    (tasks ≠ [] ↔
     ∃ i u, find_row (JStr email) w = Some (i, u) ∧ User.confirmed u = false) ∧
    (∀ task, task ∈ tasks → tasks = [task] ∧ task_email task = email ∧
                            task_base_url task = base_url).
Proof.
  run_registration.
  destruct (list_find _ (db w)) as [[i u]|] eqn:Hfind.
  - pose proof Hfind as Hmail.
    apply list_find_Some in Hmail as (_ & [= Hmail] & _).
    destruct (User.confirmed u) eqn:Hc; run_registration.
    + eexists _, _. split; [reflexivity |]. split_and!.
      * by left.
      * split; [intros _; by exists i, u | done].
      * split; [done | intros (? & ? & [= <- <-] & ?); congruence].
      * by intros task ?%elem_of_nil.
    + eexists _, _. split; [reflexivity |]. split_and!.
      * by right.
      * split; [done | intros (? & ? & [= <- <-] & ?); congruence].
      * split; [intros _; by exists i, u | done].
      * intros task ->%list_elem_of_singleton. by rewrite Hmail.
  - eexists _, _. split; [reflexivity |]. split_and!.
    + by right.
    + split; [done | by intros (? & ? & ? & _)].
    + split; [done | by intros (? & ? & ? & _)].
    + by intros task ?%elem_of_nil.
Qed.

End RegistrationProperties.

(** ** Properties of the contacts routes *)

Lemma gate_update_passes (u : User.t) :
  User.roles u ≠ Role.user → allowed_operation_update u = Returns tt.
Proof.
  unfold allowed_operation_update, RoleAccess.
  by destruct (User.roles u).
Qed.

Lemma gate_remove_passes (u : User.t) :
  User.roles u = Role.admin → allowed_operation_remove u = Returns tt.
Proof.
  unfold allowed_operation_remove, RoleAccess. by intros ->.
Qed.

(** The routes that change or delete a contact are closed to the roles
    their gates do not list: a principal with role user gets 403 from
    [update_contact] and [remove_contact], a moderator gets 403 from
    [remove_contact], and in each case the table is left as it was; reading,
    creating and the birthdays route pass the gate for every role. *)
Theorem contact_routes_respect_roles (current_user : User.t)
    (body : Contact.t) (id today : Z) (table : list Contact.t) :
  let forbidden {A} : outcome A :=
    Raises (HTTPException 403 "Operation forbidden" []) in
  (User.roles current_user = Role.user →
   update_contact current_user body id table = (forbidden, table) ∧
   remove_contact current_user id table = (forbidden, table)) ∧
  (User.roles current_user = Role.moderator →
   remove_contact current_user id table = (forbidden, table)) ∧
  (get_contact current_user id table).1 ≠ forbidden ∧
  (create_contacts current_user body table).1 ≠ forbidden ∧
  (birthdays_route current_user today table).1 ≠ forbidden.
Proof.
  cbv zeta. split_and!.
  - intros Hrole.
    unfold update_contact, remove_contact, guarded, allowed_operation_update,
      allowed_operation_remove, RoleAccess.
    by rewrite Hrole.
  - intros Hrole.
    unfold remove_contact, guarded, allowed_operation_remove, RoleAccess.
    by rewrite Hrole.
  - unfold get_contact, guarded, allowed_operation_get, RoleAccess, not_found.
    destruct (User.roles current_user); cbn;
      by destruct (get_contact_by_id id table) as [[??]|].
  - unfold create_contacts, guarded, allowed_operation_create, RoleAccess.
    destruct (User.roles current_user); cbn;
      by destruct (get_contact_by_email _ table) as [[??]|].
  - unfold birthdays_route, guarded, allowed_operation_get, RoleAccess.
    by destruct (User.roles current_user).
Qed.

(** [update_contact], for a principal its gate admits and an id that has a
    row, rewrites the first row with that id: the email, the birth date and
    the additional data become those of the body, while the id, the first
    name, the last name and the phone number stay those of the row,
    whatever the body carries for them; no other row changes and the table
    keeps its length. *)
Theorem update_contact_changes_three_columns (current_user : User.t)
    (body : Contact.t) (id : Z) (table : list Contact.t) (i : nat)
    (contact : Contact.t) :
  User.roles current_user ≠ Role.user →
  get_contact_by_id id table = Some (i, contact) →
  ∃ updated table',
    update_contact current_user body id table = (Returns updated, table') ∧
    Contact.email updated = Contact.email body ∧
    Contact.birth_date updated = Contact.birth_date body ∧
    Contact.additional_data updated = Contact.additional_data body ∧
    Contact.id updated = id ∧
    Contact.first_name updated = Contact.first_name contact ∧
    Contact.last_name updated = Contact.last_name contact ∧
    Contact.phone_number updated = Contact.phone_number contact ∧
    table' !! i = Some updated ∧
    (∀ j, j ≠ i → table' !! j = table !! j) ∧
    length table' = length table.
Proof.
  intros Hrole Hfind.
  unfold update_contact, guarded, update.
  rewrite (gate_update_passes _ Hrole), Hfind.
  apply list_find_Some in Hfind as (Hi & Hid & _).
  eexists _, _. split; [reflexivity |]. cbn.
  split_and!; try done.
  - apply list_lookup_insert_eq. by eapply lookup_lt_Some.
  - intros j Hj. by apply list_lookup_insert_ne.
  - apply length_insert.
Qed.

(** [remove_contact], for an admin and an id that has a row, returns the
    first row with that id and deletes it, and no other; when ids are
    unique in the table, the id has no row afterwards and [get_contact]
    answers 404 "Not Found". *)
Theorem remove_contact_deletes_row (current_user : User.t) (id : Z)
    (table : list Contact.t) (i : nat) (contact : Contact.t) :
  User.roles current_user = Role.admin →
  get_contact_by_id id table = Some (i, contact) →
  remove_contact current_user id table = (Returns contact, delete i table) ∧
  length (delete i table) = pred (length table) ∧
  (NoDup (Contact.id <$> table) →
   get_contact_by_id id (delete i table) = None ∧
   get_contact current_user id (delete i table)
     = (not_found, delete i table)).
Proof.
  intros Hrole Hfind.
  assert (Hrun : remove_contact current_user id table
                 = (Returns contact, delete i table)).
  { unfold remove_contact, guarded, remove.
    by rewrite (gate_remove_passes _ Hrole), Hfind. }
  apply list_find_Some in Hfind as (Hi & Hid & _).
  split_and!; [done | |].
  - rewrite length_delete; [lia | by eexists].
  - intros Hnodup.
    assert (Hgone : get_contact_by_id id (delete i table) = None).
    { apply list_find_None, Forall_forall. intros c Hc Hcid.
      apply list_elem_of_lookup in Hc as [j Hj].
      assert (Hk : ∃ k, k ≠ i ∧ table !! k = Some c).
      { destruct (decide (j < i)%nat).
        - exists j. split; [lia |]. by rewrite list_lookup_delete_lt in Hj.
        - exists (S j). split; [lia |].
          by rewrite list_lookup_delete_ge in Hj by lia. }
      destruct Hk as (k & Hk & Hlook).
      apply Hk. apply (NoDup_lookup _ k i id Hnodup).
      + by rewrite list_lookup_fmap, Hlook, <- Hcid.
      + by rewrite list_lookup_fmap, Hi, <- Hid. }
    split; [done |].
    unfold get_contact, guarded, allowed_operation_get, RoleAccess.
    rewrite Hrole, Hgone. done.
Qed.

(** An id without a row is answered 404 "Not Found" by [get_contact],
    [update_contact] and [remove_contact] for a principal their gates admit,
    and the table is left as it was. *)
Theorem contact_not_found (current_user : User.t) (body : Contact.t) (id : Z)
    (table : list Contact.t) :
  get_contact_by_id id table = None →
  get_contact current_user id table = (not_found, table) ∧
  (User.roles current_user ≠ Role.user →
   update_contact current_user body id table = (not_found, table)) ∧
  (User.roles current_user = Role.admin →
   remove_contact current_user id table = (not_found, table)).
Proof.
  intros Hnone. split_and!.
  - unfold get_contact, guarded, allowed_operation_get, RoleAccess.
    rewrite Hnone. by destruct (User.roles current_user).
  - intros Hrole. unfold update_contact, guarded, update.
    by rewrite (gate_update_passes _ Hrole), Hnone.
  - intros Hrole. unfold remove_contact, guarded, remove.
    by rewrite (gate_remove_passes _ Hrole), Hnone.
Qed.

(** [create_contacts], for a body whose id has no row, keeps emails unique:
    if no two rows share an email before the call, none do after it,
    whether it appends the body (then found by its email) or refuses it
    with 409 "Email is exists!" because the email has a row. *)
Theorem create_contacts_keeps_emails_unique (current_user : User.t)
    (body : Contact.t) (table : list Contact.t) :
  get_contact_by_id (Contact.id body) table = None →
  NoDup (Contact.email <$> table) →
  NoDup (Contact.email <$> (create_contacts current_user body table).2) ∧
  match get_contact_by_email (Contact.email body) table with
  | Some _ =>
      create_contacts current_user body table =
        (Raises (HTTPException 409 "Email is exists!" []), table)
  | None =>
      create_contacts current_user body table
        = (Returns body, (table ++ [body])%list) ∧
      get_contact_by_email (Contact.email body) (table ++ [body])%list
        = Some (length table, body)
  end.
Proof.
  intros _ Hnodup.
  assert (Hgate : allowed_operation_create current_user = Returns tt).
  { unfold allowed_operation_create, RoleAccess.
    by destruct (User.roles current_user). }
  unfold create_contacts, guarded. rewrite Hgate.
  destruct (get_contact_by_email (Contact.email body) table)
    as [[i c]|] eqn:Hfind.
  - done.
  - cbn [create snd]. split.
    + rewrite fmap_app. apply NoDup_app. split_and!; [done | | apply NoDup_singleton].
      intros e He ->%list_elem_of_singleton.
      apply list_elem_of_fmap in He as (c & Hc & Hin).
      apply list_find_None in Hfind.
      by apply (proj1 (Forall_forall _ _) Hfind c Hin).
    + split; [done |]. unfold get_contact_by_email.
      rewrite list_find_app_r by done. cbn.
      by rewrite decide_True.
Qed.

(** The birthdays route compares whole birth dates with the window from
    today to seven days ahead: every contact it returns was born within
    that window, the contacts are returned in table order, and a table
    whose contacts were all born before today yields the empty list (never
    a 404). *)
Theorem birthdays_route_window (current_user : User.t) (today : Z)
    (table : list Contact.t) :
  ∃ birthdays,
    birthdays_route current_user today table = (Returns birthdays, table) ∧
    birthdays `sublist_of` table ∧
    (∀ c, c ∈ birthdays ↔
          c ∈ table ∧ (today ≤ Contact.birth_date c ≤ today + 7)%Z) ∧
    (Forall (λ c, (Contact.birth_date c < today)%Z) table → birthdays = []).
Proof.
  assert (Hgate : allowed_operation_get current_user = Returns tt).
  { unfold allowed_operation_get, RoleAccess.
    by destruct (User.roles current_user). }
  unfold birthdays_route, guarded. rewrite Hgate.
  eexists. split; [reflexivity |]. unfold get_birthdays. split_and!.
  - apply sublist_filter.
  - intros c. rewrite list_elem_of_filter. tauto.
  - intros Hall.
    destruct (filter _ table) as [|c rest] eqn:Hfilter; [done |].
    assert (Hc : c ∈ filter
              (λ c, (today ≤ Contact.birth_date c)%Z ∧
                    (Contact.birth_date c ≤ today + 7)%Z) table)
      by (rewrite Hfilter; left).
    apply list_elem_of_filter in Hc as [[Hlo _] Hin].
    apply (proj1 (Forall_forall _ _) Hall) in Hin. lia.
Qed.

(** ** Properties of main.py *)

(** The address filter lets a request through exactly for the three listed
    addresses, 192.168.1.0, 172.16.0.0 and 127.0.0.1 themselves: every other
    dotted quad, the other hosts of those networks included, and every IPv6
    address is answered 403 "Not allowed IP address", and then the rest of
    the application does not run (its state is untouched). *)
Theorem limit_access_by_ip_allows_three {S R : Type} (call_next : S → R * S)
    (s : S) :
  (∀ a b c d : Z,
     (0 ≤ a < 256)%Z → (0 ≤ b < 256)%Z → (0 ≤ c < 256)%Z → (0 ≤ d < 256)%Z →
     limit_access_by_ip (ipv4 a b c d) call_next s =
       if decide ((a, b, c, d) ∈ [(192, 168, 1, 0); (172, 16, 0, 0);
                                  (127, 0, 0, 1)])
       then (Passed (call_next s).1, (call_next s).2)
       else (JSONResponse 403 "Not allowed IP address", s)) ∧
  (∀ n, limit_access_by_ip (IPv6Address n) call_next s
          = (JSONResponse 403 "Not allowed IP address", s)).
Proof.
  split.
  - intros a b c d Ha Hb Hc Hd. unfold limit_access_by_ip.
    destruct (decide ((a, b, c, d) ∈ _)) as [Hin|Hout].
    + rewrite decide_False.
      * by destruct (call_next s).
      * intros Hnot. apply Hnot.
        rewrite !elem_of_cons, elem_of_nil in Hin.
        destruct Hin as [[= -> -> -> ->]|[[= -> -> -> ->]|[[= -> -> -> ->]|[]]]];
          unfold ALLOWED_IPS; rewrite !elem_of_cons; auto.
    + rewrite decide_True; [done |].
      intros Hin. apply Hout.
      unfold ALLOWED_IPS, ipv4 in Hin.
      rewrite !elem_of_cons, elem_of_nil in Hin.
      rewrite !elem_of_cons, elem_of_nil.
      destruct Hin as [[= Heq]|[[= Heq]|[[= Heq]|[]]]].
      * left. assert (a = 192 ∧ b = 168 ∧ c = 1 ∧ d = 0)%Z
          as (-> & -> & -> & ->) by lia. done.
      * right; left. assert (a = 172 ∧ b = 16 ∧ c = 0 ∧ d = 0)%Z
          as (-> & -> & -> & ->) by lia. done.
      * right; right; left. assert (a = 127 ∧ b = 0 ∧ c = 0 ∧ d = 1)%Z
          as (-> & -> & -> & ->) by lia. done.
  - intros n. unfold limit_access_by_ip. rewrite decide_True; [done |].
    unfold ALLOWED_IPS, ipv4. rewrite !elem_of_cons, elem_of_nil.
    by intros [|[|[|[]]]].
Qed.

(** The health check answers its welcome exactly when [SELECT 1] returns a
    row.  Every failure, a query that returns no row included, is answered
    500 "Error connecting to the database": the detail "Database is not
    configured correctly" raised inside the [try] block is replaced by the
    handler of that block and never reaches the caller. *)
Theorem healthchecker_outcomes (select_1 : outcome (option unit)) :
  (healthchecker select_1 = Returns "Welcome to FastAPI!" ↔
   ∃ row, select_1 = Returns (Some row)) ∧
  ((¬ ∃ row, select_1 = Returns (Some row)) →
   healthchecker select_1 =
     Raises (HTTPException 500 "Error connecting to the database" [])) ∧
  (∀ headers,
     healthchecker select_1 ≠
       Raises (HTTPException 500 "Database is not configured correctly"
                             headers)).
Proof.
  unfold healthchecker. destruct select_1 as [[row|]|e].
  - split_and!; [| |done].
    + split; [by eexists | done].
    + intros Hno. exfalso. apply Hno. by eexists.
  - split_and!; [| done | done]. split; [done | by intros [? ?]].
  - split_and!; [| done | done]. split; [done | by intros [? ?]].
Qed.

(** ** The properties at the concrete instance *)

Import Demo.

(** C9, the claim as stated refuted: an explicit lifetime of 0 seconds is
    taken for no lifetime, and the token expires 900 seconds after issuance,
    not 0. *)
Lemma C9_explicit_zero_lifetime_ignored :
  ¬ explicit_lifetime_honoured clock default_settings.
Proof.
  intros Hclaim.
  destruct (Hclaim {["sub" := PyJ (JStr "alice@example.com")]} 0 world)
    as (c & Htoken & Hexp).
  unfold encode, jwt_encode, jose, encode_claims in Htoken.
  rewrite Hexp in Htoken.
  match type of Htoken with
  | _ = Returns (_ +:+ ?rest) => set (tail := rest) in Htoken; clearbody tail
  end.
  vm_compute in Htoken. discriminate Htoken.
Qed.

(** C9 (as amended) at the instance: an explicit lifetime of 60 seconds
    expires 60 seconds after issuance; one of a tenth of a microsecond,
    which [timedelta] rounds to nothing, at issuance; one of 300 000 000 000
    seconds, which leads past year 9999, raises [OverflowError]. *)
Lemma C9_token_lifetimes_witness :
  expires_after default_settings
    (create_access_token clock default_settings access_claims
       (Some (whole_seconds 60)) world)
    (clock (ticks world)) (60 * 1000000) ∧
  expires_after default_settings
    (create_access_token clock default_settings access_claims
       (Some tenth_of_a_microsecond) world)
    (clock (ticks world)) 0 ∧
  (create_access_token clock default_settings access_claims
     (Some (whole_seconds 300000000000)) world).1 = Raises OverflowError.
Proof.
  pose proof (C9_token_lifetimes clock default_settings access_claims world)
    as Hspec.
  cbv zeta in Hspec.
  destruct Hspec as (_ & Hfloat & Hwhole & Hraises & _).
  split_and!.
  - apply Hwhole; [discriminate | |]; vm_compute; split; discriminate.
  - apply Hfloat; [reflexivity | reflexivity |].
    vm_compute; split; discriminate.
  - pose proof (Hraises (whole_seconds 300000000000) eq_refl) as Hout.
    rewrite whole_seconds_timedelta in Hout
      by (vm_compute; split; discriminate).
    apply Hout. vm_compute. intros [_ Hle]. apply Hle. reflexivity.
Defined.

(** C1, the claim as stated refuted: an access token whose subject is the
    empty string resolves to the row whose email is the empty string. *)
Lemma C1_empty_subject_resolves :
  ¬ @resolves_only_nonempty_subject clock default_settings Demo3.jose pickle.
Proof.
  intros Hclaim.
  destruct (Hclaim (token_of Demo3.anonymous_claims) Demo3.world
              Demo3.nameless) as (payload & Hdec & _ & _ & Hnonempty).
  { vm_compute. reflexivity. }
  assert (Hpayload : @jwt_decode Demo3.jose
                       (token_of Demo3.anonymous_claims)
                       (secret_key default_settings)
                       [algorithm default_settings]
                       (clock (ticks Demo3.world))
                     = Some (to_json <$> Demo3.anonymous_claims))
    by (vm_compute; reflexivity).
  rewrite Hpayload in Hdec. injection Hdec as <-.
  apply Hnonempty. vm_compute. reflexivity.
Qed.

(** C1 (as amended) at the instance: Alice's access token on a cold cache
    resolves to her row and leaves the pickled row under her key for 900
    seconds. *)
Lemma C1_get_current_user_witness :
  let res :=
    get_current_user clock default_settings (token_of access_claims) world in
  res.1 = Returns alice ∧
  ∀ now,
    redis_get now "user:alice@example.com" (r res.2) =
    if bool_decide (now < clock 2 + 900 * 1000000)
    then Some (dumps (Some alice)) else None.
Proof.
  pose proof (C1_get_current_user clock default_settings
                (token_of access_claims) world) as Hspec.
  cbv zeta in Hspec. destruct Hspec as [_ Hspec].
  specialize (Hspec (to_json <$> access_claims)).
  assert (Hdec : jwt_decode (token_of access_claims)
                   (secret_key default_settings)
                   [algorithm default_settings] (clock (ticks world))
                 = Some (to_json <$> access_claims))
    by (vm_compute; reflexivity).
  assert (Hscope : dict_get "scope" (to_json <$> access_claims)
                   = JStr "access_token") by (vm_compute; reflexivity).
  assert (Hsub : dict_get "sub" (to_json <$> access_claims)
                 = JStr "alice@example.com") by (vm_compute; reflexivity).
  specialize (Hspec Hdec Hscope).
  rewrite Hsub in Hspec. specialize (Hspec ltac:(discriminate)).
  assert (Hget : redis_get (clock (S (ticks world)))
                   ("user:" +:+ py_str (JStr "alice@example.com")) (r world)
                 = None) by (vm_compute; reflexivity).
  rewrite Hget in Hspec.
  assert (Hfind : list_find
                    (λ u, JStr (User.email u) = JStr "alice@example.com")
                    (db world) = Some (0%nat, alice))
    by (vm_compute; reflexivity).
  rewrite Hfind in Hspec.
  destruct Hspec as (Hres & _ & _ & Httl).
  split; [exact Hres | exact Httl].
Defined.

(** C4 at the failing input: Alice's access token, whose signature is valid
    and whose scope is ["access_token"], is answered with [None]. *)
Lemma C4_wrong_scope_returns_none_witness :
  get_email_from_token clock default_settings (token_of access_claims) world
    = (Returns JNull, tick world).
Proof.
  apply (C4_wrong_scope_returns_none clock default_settings
           (token_of access_claims) world (to_json <$> access_claims)
           (JStr "access_token")).
  - vm_compute. reflexivity.
  - vm_compute. reflexivity.
  - discriminate.
Defined.

(** C10 at the instance: a refresh token signed for an email that has no
    row. *)
Lemma C10_refresh_without_principal_witness :
  (refresh_token clock default_settings (token_of ghost_refresh_claims)
     world).1
    = Raises (AttributeError
                "'NoneType' object has no attribute 'refresh_token'").
Proof.
  pose proof (C10_refresh_without_principal clock default_settings
                (token_of ghost_refresh_claims) world
                (to_json <$> ghost_refresh_claims)
                (JStr "ghost@example.com")) as Hspec.
  destruct Hspec as [Hrun _].
  - vm_compute. reflexivity.
  - vm_compute. reflexivity.
  - vm_compute. reflexivity.
  - vm_compute. reflexivity.
  - rewrite Hrun. reflexivity.
Defined.

(** C2 at the instance: a stale refresh token of Alice, whose row stores a
    newer one. *)
Lemma C2_refresh_mismatch_witness :
  (refresh_token clock default_settings (token_of stale_refresh_claims)
     world).1
    = Raises (HTTPException 401 "Invalid refresh token" []) ∧
  stored_refresh_token (JStr "alice@example.com")
    (refresh_token clock default_settings (token_of stale_refresh_claims)
       world).2 = Some None.
Proof.
  pose proof (C2_refresh_mismatch clock default_settings
                (token_of stale_refresh_claims) world
                (to_json <$> stale_refresh_claims)
                (JStr "alice@example.com") 0%nat alice) as Hspec.
  cbv zeta in Hspec.
  destruct Hspec as (Hres & _ & Hstored & _).
  - vm_compute. reflexivity.
  - vm_compute. reflexivity.
  - vm_compute. reflexivity.
  - vm_compute. reflexivity.
  - vm_compute. discriminate.
  - split; [exact Hres | exact Hstored].
Defined.

(** C5, the claim as stated refuted: for an unknown email the response says
    "Invalid email", for Alice with a wrong password "Invalid password". *)
Lemma C5_login_failures_distinguishable :
  ¬ login_failures_indistinguishable clock default_settings.
Proof.
  intros Hclaim.
  specialize (Hclaim world nobody_login alice_wrong_password 0%nat alice).
  assert (Hsame :
    (login clock default_settings nobody_login world).1 =
    (login clock default_settings alice_wrong_password world).1).
  { apply Hclaim; vm_compute; reflexivity. }
  vm_compute in Hsame. discriminate Hsame.
Qed.

(** C5 (as amended) at the instance. *)
Lemma C5_login_failures_differ_witness :
  login clock default_settings nobody_login world
    = (Raises (HTTPException 401 "Invalid email" []), world) ∧
  login clock default_settings alice_wrong_password world
    = (Raises (HTTPException 401 "Invalid password" []), world).
Proof.
  pose proof (C5_login_failures_differ clock default_settings world
                nobody_login alice_wrong_password 0%nat alice) as Hspec.
  destruct Hspec as (Hunknown & Hknown & _).
  - vm_compute. reflexivity.
  - vm_compute. reflexivity.
  - vm_compute. reflexivity.
  - split; [exact Hunknown | exact Hknown].
Defined.

(** C3, the claim as stated refuted: [jwt.encode] writes ["iat"] and
    ["exp"] as whole seconds, so two logins of Alice within the same second
    issue the same refresh token, and the token of the first login still
    refreshes after the second. *)
Lemma C3_same_second_token_still_valid :
  ¬ superseded_token_refused clock default_settings.
Proof.
  intros Hclaim.
  set (first := login clock default_settings alice_login world).
  set (toks1 := match first.1 with
                | Returns t => t
                | Raises _ => TokenModel.mk "" "" ""
                end).
  set (second := login clock default_settings alice_login first.2).
  set (toks2 := match second.1 with
                | Returns t => t
                | Raises _ => TokenModel.mk "" "" ""
                end).
  assert (Hfirst : login clock default_settings alice_login world
                   = (Returns toks1, first.2)) by (vm_compute; reflexivity).
  assert (Hsecond : login clock default_settings alice_login first.2
                    = (Returns toks2, second.2)) by (vm_compute; reflexivity).
  pose proof (Hclaim alice_login world first.2 second.2 toks1 toks2
                Hfirst Hsecond) as Hrefused.
  vm_compute in Hrefused. discriminate Hrefused.
Qed.

(** C3 (as amended) at the instance: Alice logs in.  Her row then stores
    the refresh token of the response, signed from the first clock
    readings; a refresh token issued to her hours before, whose claims
    differ, is refused; the token of the response refreshes. *)
Lemma C3_single_valid_refresh_token_witness :
  let res := login clock default_settings alice_login world in
  ∃ toks,
    res.1 = Returns toks ∧
    toks = issued_tokens clock default_settings 0 (JStr "alice@example.com") ∧
    stored_refresh_token (JStr "alice@example.com") res.2
      = Some (Some (TokenModel.refresh_token toks)) ∧
    (refresh_token clock default_settings (token_of stale_refresh_claims)
                   res.2).1
      = Raises (HTTPException 401 "Invalid refresh token" []) ∧
    (refresh_token clock default_settings (TokenModel.refresh_token toks)
                   res.2).1
      = Returns (issued_tokens clock default_settings (S (ticks res.2))
                               (JStr "alice@example.com")).
Proof.
  intros res.
  set (toks := match res.1 with
               | Returns t => t
               | Raises _ => TokenModel.mk "" "" ""
               end).
  assert (Hrun : login clock default_settings alice_login world
                 = (Returns toks, res.2)) by (vm_compute; reflexivity).
  destruct (C3_single_valid_refresh_token clock default_settings
              world res.2 (JStr "alice@example.com") toks)
    as (_ & Hstored & Hexact & Hdiffer).
  { left. exists alice_login. split; [reflexivity | exact Hrun]. }
  assert (Hnew : jwt_decode (TokenModel.refresh_token toks)
                   (secret_key default_settings)
                   [algorithm default_settings] (clock (ticks res.2))
                 = Some (to_json <$> refresh_claims))
    by (vm_compute; reflexivity).
  exists toks. split_and!.
  - vm_compute. reflexivity.
  - vm_compute. reflexivity.
  - exact Hstored.
  - apply (Hdiffer res.2 (token_of stale_refresh_claims)
             (to_json <$> stale_refresh_claims) (to_json <$> refresh_claims)).
    + reflexivity.
    + vm_compute. reflexivity.
    + vm_compute. reflexivity.
    + vm_compute. reflexivity.
    + exact Hnew.
    + intros Heq. apply (f_equal (λ m, m !! "iat")) in Heq.
      vm_compute in Heq. discriminate Heq.
  - pose proof (Hexact res.2 (TokenModel.refresh_token toks)
                  (to_json <$> refresh_claims) eq_refl Hnew) as Hsame.
    rewrite decide_True in Hsame by reflexivity.
    apply Hsame; vm_compute; reflexivity.
Defined.

(** The warm world of the instance is consistent: its only entry is Alice's
    pickled row. *)
Lemma warm_world_consistent (now : Z) :
  cache_consistent now warm_world.
Proof.
  intros email blob Hget. unfold redis_get, warm_world in Hget. cbn [r] in Hget.
  destruct (decide ("user:" +:+ email = "user:alice@example.com")) as [Hkey|Hkey].
  - rewrite Hkey, lookup_singleton_eq in Hget. cbn [live deadline value] in Hget.
    injection Hget as <-.
    change "user:alice@example.com"
      with ("user:" +:+ "alice@example.com") in Hkey.
    apply (inj (String.append "user:")) in Hkey. subst email.
    exists 0%nat, alice. split; vm_compute; reflexivity.
  - rewrite lookup_singleton_ne in Hget by congruence. discriminate Hget.
Qed.

(** C8 at the instance: Alice's access token against the cold and the warm
    world. *)
Lemma C8_cold_warm_equivalent_witness :
  (get_current_user clock default_settings (token_of access_claims)
     warm_world).1 = Returns alice ∧
  (get_current_user clock default_settings (token_of access_claims)
     world).1 = Returns alice.
Proof.
  destruct (C8_cold_warm_equivalent clock default_settings
              (token_of access_claims) world warm_world
              (to_json <$> access_claims) "alice@example.com")
    as (u & Hwarm & Hcold & _).
  - reflexivity.
  - reflexivity.
  - vm_compute. reflexivity.
  - vm_compute. reflexivity.
  - vm_compute. reflexivity.
  - apply warm_world_consistent.
  - vm_compute. reflexivity.
  - vm_compute. eexists. reflexivity.
  - assert (Hu : Returns u = Returns alice).
    { rewrite <- Hwarm. vm_compute. reflexivity. }
    injection Hu as ->. split; [exact Hwarm | exact Hcold].
Defined.

(** ** The further properties at the concrete instance *)

Import Demo2.

Lemma login_failure_writes_nothing_witness :
  (login clock default_settings alice_wrong_password world).2 = world.
Proof.
  apply (login_failure_writes_nothing clock default_settings
           alice_wrong_password world _
           (HTTPException 401 "Invalid password" [])).
  vm_compute. reflexivity.
Defined.

(** Alice's row is cached by a first resolution and served by a second one
    although the table has lost every row by then. *)
Lemma cache_entry_served_until_deadline_witness :
  let w1 := world in
  let first := get_current_user clock default_settings
                 (token_of access_claims) w1 in
  let w2 := {| db := []; r := r first.2; ticks := 3 |} in
  first.1 = Returns alice ∧
  (get_current_user clock default_settings (token_of access_claims) w2).1
    = Returns alice.
Proof.
  intros w1 first w2.
  pose proof (cache_entry_served_until_deadline clock default_settings
                (token_of access_claims) w1 w2
                (to_json <$> access_claims) (to_json <$> access_claims)
                "alice@example.com" 0%nat alice) as Hspec.
  destruct Hspec as [Hfirst Hsecond].
  - vm_compute. reflexivity.
  - vm_compute. reflexivity.
  - vm_compute. reflexivity.
  - vm_compute. reflexivity.
  - vm_compute. reflexivity.
  - vm_compute. reflexivity.
  - reflexivity.
  - vm_compute. reflexivity.
  - vm_compute. reflexivity.
  - vm_compute. reflexivity.
  - split; [exact Hfirst |].
    rewrite bool_decide_eq_true_2 in Hsecond by (vm_compute; reflexivity).
    exact Hsecond.
Defined.

(** Alice logs in and refreshes with the refresh token she was given. *)
Lemma login_then_refresh_witness :
  let res := login clock default_settings alice_login world in
  ∃ toks toks' w3,
    res.1 = Returns toks ∧
    refresh_token clock default_settings (TokenModel.refresh_token toks) res.2
      = (Returns toks', w3) ∧
    stored_refresh_token (JStr "alice@example.com") w3
      = Some (Some (TokenModel.refresh_token toks')).
Proof.
  intros res.
  set (toks := issued_tokens clock default_settings 0
                 (JStr "alice@example.com")).
  assert (Hlogin : login clock default_settings alice_login world
                   = (Returns toks, res.2)) by (vm_compute; reflexivity).
  destruct (login_then_refresh clock default_settings alice_login world
              res.2 res.2 toks (to_json <$> login_refresh_claims))
    as (toks' & w3 & Hrun & _ & Hstored).
  - exact Hlogin.
  - reflexivity.
  - vm_compute. reflexivity.
  - vm_compute. reflexivity.
  - vm_compute. reflexivity.
  - exists toks, toks', w3. split_and!.
    + vm_compute. reflexivity.
    + exact Hrun.
    + exact Hstored.
Defined.

(** Alice logs in and is resolved from the access token she was given. *)
Lemma login_then_current_user_witness :
  let res := login clock default_settings alice_login world in
  ∃ toks u,
    res.1 = Returns toks ∧
    (get_current_user clock default_settings (TokenModel.access_token toks)
       res.2).1 = Returns u ∧
    User.email u = "alice@example.com" ∧
    User.refresh_token u = Some (TokenModel.refresh_token toks).
Proof.
  intros res.
  set (toks := issued_tokens clock default_settings 0
                 (JStr "alice@example.com")).
  assert (Hlogin : login clock default_settings alice_login world
                   = (Returns toks, res.2)) by (vm_compute; reflexivity).
  destruct (login_then_current_user clock default_settings alice_login world
              res.2 res.2 toks (to_json <$> login_access_claims))
    as (u & Hrun & Hmail & _ & Htok).
  - exact Hlogin.
  - reflexivity.
  - vm_compute. reflexivity.
  - vm_compute. reflexivity.
  - vm_compute. reflexivity.
  - vm_compute. reflexivity.
  - exists toks, u. split_and!.
    + vm_compute. reflexivity.
    + exact Hrun.
    + exact Hmail.
    + exact Htok.
Defined.

(** A stale token of Alice is refused, and then her stored token too. *)
Lemma mismatch_revokes_current_token_witness :
  let first := refresh_token clock default_settings
                 (token_of stale_refresh_claims) world in
  first.1 = Raises (HTTPException 401 "Invalid refresh token" []) ∧
  (refresh_token clock default_settings (token_of refresh_claims) first.2).1
    = Raises (HTTPException 401 "Invalid refresh token" []).
Proof.
  intros first.
  apply (mismatch_revokes_current_token clock default_settings
           (token_of stale_refresh_claims) (token_of refresh_claims)
           world first.2
           (to_json <$> stale_refresh_claims) (to_json <$> refresh_claims)
           (JStr "alice@example.com") 0%nat alice).
  - vm_compute. reflexivity.
  - vm_compute. reflexivity.
  - vm_compute. reflexivity.
  - vm_compute. reflexivity.
  - vm_compute. reflexivity.
  - vm_compute. discriminate.
  - reflexivity.
  - vm_compute. reflexivity.
  - vm_compute. reflexivity.
  - vm_compute. reflexivity.
Defined.

(** Carol registers; a second registration with her email is refused. *)
Lemma signup_registers_once_witness :
  ∃ new_user w',
    signup columns carol "salt" "http://localhost:8000/" world
      = (Returns (new_user,
                  [{| task_email := "carol@example.com";
                      task_username := "carol1";
                      task_base_url := "http://localhost:8000/" |}]), w') ∧
    User.password new_user = "$2b$pass1234" ∧
    signup columns carol "pepper" "http://localhost:8000/" w'
      = (Raises (HTTPException 409 "Account already exists" []), w').
Proof.
  destruct (signup_registers_once columns carol carol "salt" "pepper"
              "http://localhost:8000/" "http://localhost:8000/"
              "$2b$pass1234" world)
    as (new_user & w' & Hrun & _ & _ & _ & _ & Hpw & _ & Hagain).
  - vm_compute. reflexivity.
  - vm_compute. reflexivity.
  - reflexivity.
  - exists new_user, w'. split_and!; [exact Hrun | exact Hpw | exact Hagain].
Defined.

(** A registration with Alice's email: refused, nothing written. *)
Lemma signup_failure_writes_nothing_witness :
  (signup columns
     {| um_username := "alice2"; um_email := "alice@example.com";
        um_password := "whatever" |} "salt" "http://localhost:8000/"
     world).2 = world.
Proof.
  apply (signup_failure_writes_nothing columns
           {| um_username := "alice2"; um_email := "alice@example.com";
              um_password := "whatever" |} "salt" "http://localhost:8000/"
           world _ (HTTPException 409 "Account already exists" [])).
  vm_compute. reflexivity.
Defined.

(** Bob, unconfirmed, confirms his email, twice. *)
Lemma confirmation_sets_flag_once_witness :
  let first := confirmed_email clock default_settings
                 (token_of bob_email_claims) world in
  first.1 = Returns "Email confirmed" ∧
  confirmed_email clock default_settings (token_of bob_email_claims) first.2
    = (Returns "Your email is already confirmed", tick first.2).
Proof.
  intros first.
  destruct (confirmation_sets_flag_once clock default_settings
              (token_of bob_email_claims) world first.2
              (to_json <$> bob_email_claims) (to_json <$> bob_email_claims)
              (JStr "bob@example.com") 1%nat bob)
    as (Hrun & _ & _ & _ & _ & _ & Hagain).
  - vm_compute. reflexivity.
  - vm_compute. reflexivity.
  - vm_compute. reflexivity.
  - vm_compute. reflexivity.
  - reflexivity.
  - reflexivity.
  - vm_compute. reflexivity.
  - vm_compute. reflexivity.
  - vm_compute. reflexivity.
  - split; [|exact Hagain]. unfold first. rewrite Hrun. reflexivity.
Defined.

(** Alice's access token presented to the confirmation route. *)
Lemma confirmation_refuses_other_scopes_witness :
  confirmed_email clock default_settings (token_of access_claims) world
    = (Raises (HTTPException 400 "Verification error" []), tick world).
Proof.
  apply (confirmation_refuses_other_scopes clock default_settings
           (token_of access_claims) world (to_json <$> access_claims)
           (JStr "access_token")).
  - vm_compute. reflexivity.
  - vm_compute. reflexivity.
  - discriminate.
Defined.

(** Carol registers, is refused at login, confirms, and logs in. *)
Lemma registration_confirmation_login_witness :
  let w1 := set_db (db world ++ [carol_row])%list world in
  let carol_login := {| form_username := "carol@example.com";
                        form_password := "pass1234" |} in
  login clock default_settings carol_login w1
    = (Raises (HTTPException 401 "Email not confirmad" []), w1) ∧
  ∃ w3,
    confirmed_email clock default_settings (token_of carol_email_claims) w1
      = (Returns "Email confirmed", w3) ∧
    ∃ toks w5,
      login clock default_settings carol_login w3 = (Returns toks, w5) ∧
      TokenModel.token_type toks = "bearer".
Proof.
  intros w1 carol_login.
  destruct (registration_confirmation_login clock default_settings columns
              carol "salt" "http://localhost:8000/" world w1 carol_row
              [{| task_email := "carol@example.com";
                  task_username := "carol1";
                  task_base_url := "http://localhost:8000/" |}])
    as [Hbefore Hafter].
  - vm_compute. reflexivity.
  - reflexivity.
  - vm_compute. reflexivity.
  - split.
    + apply (Hbefore "pass1234" w1). reflexivity.
    + destruct (Hafter (token_of carol_email_claims)
                  (to_json <$> carol_email_claims) w1)
        as (w3 & Hconfirm & Hlogin).
      * reflexivity.
      * vm_compute. reflexivity.
      * vm_compute. reflexivity.
      * vm_compute. reflexivity.
      * exists w3. split; [exact Hconfirm |].
        apply (Hlogin w3). reflexivity.
Defined.

(** *** Contacts *)

Lemma update_contact_changes_three_columns_witness :
  ∃ updated table',
    update_contact admin_user ann_body 1 contacts = (Returns updated, table') ∧
    Contact.email updated = "ben@example.com" ∧
    Contact.first_name updated = "Ann" ∧
    Contact.phone_number updated = "555-0100".
Proof.
  destruct (update_contact_changes_three_columns admin_user ann_body 1
              contacts 0%nat ann)
    as (updated & table' & Hrun & Hmail & _ & _ & _ & Hfirst & _ & Hphone & _).
  - discriminate.
  - vm_compute. reflexivity.
  - exists updated, table'.
    split_and!; [exact Hrun | exact Hmail | exact Hfirst | exact Hphone].
Defined.

Lemma contacts_ids_unique : NoDup (Contact.id <$> contacts).
Proof. apply (bool_decide_unpack _). vm_compute. exact I. Qed.

Lemma contacts_emails_unique : NoDup (Contact.email <$> contacts).
Proof. apply (bool_decide_unpack _). vm_compute. exact I. Qed.

Lemma remove_contact_deletes_row_witness :
  remove_contact admin_user 2 contacts = (Returns ben, [ann]) ∧
  get_contact admin_user 2 [ann] = (not_found, [ann]).
Proof.
  destruct (remove_contact_deletes_row admin_user 2 contacts 1%nat ben)
    as (Hrun & _ & Hgone).
  - reflexivity.
  - vm_compute. reflexivity.
  - split; [exact Hrun |]. apply Hgone, contacts_ids_unique.
Defined.

Lemma contact_not_found_witness :
  get_contact admin_user 5 contacts = (not_found, contacts) ∧
  update_contact admin_user ann_body 5 contacts = (not_found, contacts) ∧
  remove_contact admin_user 5 contacts = (not_found, contacts).
Proof.
  destruct (contact_not_found admin_user ann_body 5 contacts)
    as (Hget & Hupdate & Hremove).
  - vm_compute. reflexivity.
  - split_and!; [exact Hget | apply Hupdate; discriminate
                 | apply Hremove; reflexivity].
Defined.

Lemma create_contacts_keeps_emails_unique_witness :
  let cy := Contact.mk 3 "Cy" "Fox" "cy@example.com" "555-0102" 12000 None in
  NoDup (Contact.email <$> (create_contacts admin_user cy contacts).2).
Proof.
  intros cy.
  apply (create_contacts_keeps_emails_unique admin_user cy contacts).
  - vm_compute. reflexivity.
  - apply contacts_emails_unique.
Defined.
